(** * spreadsheet.Sheet: rows, validation and drawing linkage

    A shallow embedding of [spreadsheet/sheet.go].  Go pointers are
    locations of an explicit store, so that two handles on one row are
    two handles on one location; a nil pointer is a location the store
    does not hold, and dereferencing it is a run-time panic. *)

From stdpp Require Import gmap strings list fin_maps pretty.
From Stdlib Require Import ZArith Lia.

Set Warnings "-clear-no-such-hyp".

(** ** Outcomes of a Go call *)

Inductive result (A : Type) : Type :=
| Ok (a : A)
| Panic.
Arguments Ok {A} a.
Arguments Panic {A}.

#[global] Instance result_ret : MRet result := λ A a, Ok a.
#[global] Instance result_bind : MBind result := λ A B k r,
  match r with
  | Ok a => k a
  | Panic => Panic
  end.

(** Dereference of a pointer held in one of the store's heaps. *)
Definition deref {V : Type} (h : gmap positive V) (p : positive) : result V :=
  match h !! p with
  | Some v => Ok v
  | None => Panic
  end.

(** ** Data model *)

(** Pointers. *)
Abbreviation loc := positive (only parsing).

(** [uint32] values are integers below [2^32]; [wrap32] is the
    wrap-around of unsigned 32-bit arithmetic. *)
Definition wrap32 (z : Z) : Z := (z mod 2 ^ 32)%Z.
Definition is_uint32 (z : Z) : Prop := (0 ≤ z < 2 ^ 32)%Z.

(** [sml.CT_Cell]: only the optional address [RAttr *string] matters here. *)
Record CT_Cell : Type := mkCell { Cell_RAttr : option string }.

(** [sml.CT_Row]: the optional row number [RAttr *uint32] and the cells [C]. *)
Record CT_Row : Type := mkCT_Row { Row_RAttr : option Z; Row_C : list CT_Cell }.

(** [sml.CT_Drawing]: the relationship identifier [IdAttr]. *)
Record CT_Drawing : Type := mkCT_Drawing { IdAttr : string }.

(** [sml.Worksheet]: [SheetData.Row], a slice of row pointers, and the
    optional [Drawing]. *)
Record Worksheet : Type := mkWorksheet {
  SheetData_Row : list loc;
  Drawing : option CT_Drawing
}.

(** [sml.CT_Sheet]: the sheet metadata record. *)
Record CT_Sheet : Type := mkCT_Sheet { NameAttr : string }.

Inductive DocType : Type :=
| DocTypeSpreadsheet
| DocTypeDocument
| DocTypePresentation.

(** Modelled from the spec: a relationship entry of [common.Relationships],
    whose declaration is not part of this package.  An entry carries its
    assigned identifier and what it was registered with. *)
Record Relationship : Type := mkRelationship {
  Rel_ID : string;
  Rel_DocType : DocType;
  Rel_Index : Z;
  Rel_Type : string
}.

(** Modelled from the spec: [common.Relationships] is a handle passed by
    value ([rel = s.w.xwsRels[i]]) through which the workbook's own set is
    mutated, so it holds a reference; its zero value ([var rel]) holds nil. *)
Record Relationships : Type := mkRelationships { Rels_x : option loc }.

Definition zero_Relationships : Relationships := mkRelationships None.

(** [Workbook]: the fields [SetDrawing] reads. *)
Record Workbook : Type := mkWorkbook {
  xws : list loc;
  xwsRels : list Relationships;
  drawings : list loc
}.

(** The handles. *)
Record Sheet : Type := mkSheet { Sheet_w : loc; Sheet_x : loc; Sheet_ws : loc }.
Record Row : Type := mkRow { Row_w : loc; Row_x : loc }.
Record DrawingH : Type := mkDrawing { Drawing_wb : loc; Drawing_x : loc }.

(** The store: one heap per kind of object reached through a pointer. *)
Record Store : Type := mkStore {
  workbooks : gmap loc Workbook;
  sheets : gmap loc CT_Sheet;
  worksheets : gmap loc Worksheet;
  rows : gmap loc CT_Row;
  relsets : gmap loc (list Relationship)
}.

Definition set_sheets (f : gmap loc CT_Sheet → gmap loc CT_Sheet) (σ : Store) : Store :=
  mkStore (workbooks σ) (f (sheets σ)) (worksheets σ) (rows σ) (relsets σ).
Definition set_worksheets (f : gmap loc Worksheet → gmap loc Worksheet) (σ : Store) : Store :=
  mkStore (workbooks σ) (sheets σ) (f (worksheets σ)) (rows σ) (relsets σ).
Definition set_rows (f : gmap loc CT_Row → gmap loc CT_Row) (σ : Store) : Store :=
  mkStore (workbooks σ) (sheets σ) (worksheets σ) (f (rows σ)) (relsets σ).
Definition set_relsets (f : gmap loc (list Relationship) → gmap loc (list Relationship))
    (σ : Store) : Store :=
  mkStore (workbooks σ) (sheets σ) (worksheets σ) (rows σ) (f (relsets σ)).

(** Read-only methods and mutating methods. *)
Definition R (A : Type) : Type := Store → result A.
Definition M (A : Type) : Type := Store → result (A * Store).

(** ** Errors *)

Inductive error : Type :=
| Errorf_reused_row (name : string) (rowNum : Z)
| Errorf_reused_cell (name : string) (ref : string)
| Delegated (msg : string).

(** The text [fmt.Errorf] builds. *)
Definition Error (e : error) : string :=
  match e with
  | Errorf_reused_row name n => "'" +:+ name +:+ "' reused row " +:+ pretty n
  | Errorf_reused_cell name c => "'" +:+ name +:+ "' reused cell " +:+ c
  | Delegated msg => msg
  end.

(** Calls made to the validators of the schema package, in order. *)
Inductive call : Type :=
| Call_CT_Sheet_Validate
| Call_CT_Sheet_ValidateWithPath (path : string)
| Call_Worksheet_Validate.

(** What the row scan of [Validate] stops on. *)
Inductive reuse : Type :=
| ReusedRow (rowNum : Z)
| ReusedCell (ref : string).

(** ** Row addressing *)

(** [r.RAttr != nil && *r.RAttr == rowNum] *)
Definition has_number (rowNum : Z) (r : CT_Row) : bool :=
  match Row_RAttr r with
  | Some n => bool_decide (n = rowNum)
  | None => false
  end.

(** The loop of [EnsureRow]: the first row pointer whose row carries [rowNum]. *)
Fixpoint find_row (σ : Store) (rowNum : Z) (rs : list loc) : result (option loc) :=
  match rs with
  | [] => Ok None
  | r :: rs' =>
      row ← deref (rows σ) r;
      if has_number rowNum row then Ok (Some r) else find_row σ rowNum rs'
  end.

(** [sml.NewCT_Row()]: a row with every field at its zero value. *)
Definition NewCT_Row : CT_Row := mkCT_Row None [].

Definition AddNumberedRow (s : Sheet) (rowNum : Z) : M Row := λ σ,
  let r := fresh (dom (rows σ)) in
  let σ1 := set_rows (insert r (mkCT_Row (Some rowNum) (Row_C NewCT_Row))) σ in
  wks ← deref (worksheets σ1) (Sheet_ws s);
  let wks' := mkWorksheet (SheetData_Row wks ++ [r]) (Drawing wks) in
  Ok (mkRow (Sheet_w s) r, set_worksheets (insert (Sheet_ws s) wks') σ1).

Definition EnsureRow (s : Sheet) (rowNum : Z) : M Row := λ σ,
  wks ← deref (worksheets σ) (Sheet_ws s);
  found ← find_row σ rowNum (SheetData_Row wks);
  match found with
  | Some r => Ok (mkRow (Sheet_w s) r, σ)
  | None => AddNumberedRow s rowNum σ
  end.

(** The loop of [AddRow]: the running maximum, started by the caller at 0. *)
Fixpoint max_row_id (σ : Store) (maxRowID : Z) (rs : list loc) : result Z :=
  match rs with
  | [] => Ok maxRowID
  | r :: rs' =>
      row ← deref (rows σ) r;
      match Row_RAttr row with
      | Some n =>
          if bool_decide (n > maxRowID)%Z then max_row_id σ n rs'
          else max_row_id σ maxRowID rs'
      | None => max_row_id σ maxRowID rs'
      end
  end.

Definition AddRow (s : Sheet) : M Row := λ σ,
  wks ← deref (worksheets σ) (Sheet_ws s);
  maxRowID ← max_row_id σ 0 (SheetData_Row wks);
  AddNumberedRow s (wrap32 (maxRowID + 1)) σ.

Definition Name (s : Sheet) : R string := λ σ,
  x ← deref (sheets σ) (Sheet_x s);
  Ok (NameAttr x).

Definition SetName (s : Sheet) (name : string) : M unit := λ σ,
  _ ← deref (sheets σ) (Sheet_x s);
  Ok (tt, set_sheets (insert (Sheet_x s) (mkCT_Sheet name)) σ).

(** [Rows]: one [append] per stored row pointer. *)
Definition Rows (s : Sheet) : R (list Row) := λ σ,
  wks ← deref (worksheets σ) (Sheet_ws s);
  Ok (foldl (λ ret r, ret ++ [mkRow (Sheet_w s) r]) [] (SheetData_Row wks)).

(** ** Validation *)

(** The inner loop of [Validate] over the cells of one row. *)
Fixpoint scan_cells (usedCells : gset string) (cs : list CT_Cell) : option string :=
  match cs with
  | [] => None
  | c :: cs' =>
      match Cell_RAttr c with
      | None => scan_cells usedCells cs'
      | Some a =>
          if bool_decide (a ∈ usedCells) then Some a
          else scan_cells ({[a]} ∪ usedCells) cs'
      end
  end.

(** The outer loop of [Validate] over the row pointers. *)
Fixpoint scan_rows (σ : Store) (usedRows : gset Z) (rs : list loc) : result (option reuse) :=
  match rs with
  | [] => Ok None
  | r :: rs' =>
      row ← deref (rows σ) r;
      let step :=
        match Row_RAttr row with
        | Some n => if bool_decide (n ∈ usedRows) then inl n else inr ({[n]} ∪ usedRows)
        | None => inr usedRows
        end in
      match step with
      | inl n => Ok (Some (ReusedRow n))
      | inr usedRows' =>
          match scan_cells ∅ (Row_C row) with
          | Some a => Ok (Some (ReusedCell a))
          | None => scan_rows σ usedRows' rs'
          end
      end
  end.

Section Sheet.

(** The validators of the schema package: [Validate] and
    [ValidateWithPath] of [sml.CT_Sheet], and [Validate] of
    [sml.Worksheet].  Each returns a message on failure. *)
Variable CT_Sheet_Validate : Store → loc → option string.
Variable CT_Sheet_ValidateWithPath : Store → loc → string → option string.
Variable Worksheet_Validate : Store → loc → option string.

(** The identifier the relationship registry assigns to a new entry of a
    set, and the tag [gooxml.DrawingType]. *)
Variable assign_id : list Relationship → string.
Variable DrawingType : string.

Definition Validate (s : Sheet) : R (option error * list call) := λ σ,
  wks ← deref (worksheets σ) (Sheet_ws s);
  reused ← scan_rows σ ∅ (SheetData_Row wks);
  match reused with
  | Some (ReusedRow n) =>
      name ← Name s σ;
      Ok (Some (Errorf_reused_row name n), [])
  | Some (ReusedCell a) =>
      name ← Name s σ;
      Ok (Some (Errorf_reused_cell name a), [])
  | None =>
      match CT_Sheet_Validate σ (Sheet_x s) with
      | Some err => Ok (Some (Delegated err), [Call_CT_Sheet_Validate])
      | None =>
          Ok (Delegated <$> Worksheet_Validate σ (Sheet_ws s),
              [Call_CT_Sheet_Validate; Call_Worksheet_Validate])
      end
  end.

Definition ValidateWithPath (s : Sheet) (path : string) : R (option error * list call) := λ σ,
  Ok (Delegated <$> CT_Sheet_ValidateWithPath σ (Sheet_x s) path,
      [Call_CT_Sheet_ValidateWithPath path]).

(** ** Drawing linkage *)

(** Position of the first pointer of [l] equal to [p]: the scans
    [for i, q := range l { if q == p { ...; break } }]. *)
Definition index_ptr (p : loc) (l : list loc) : option nat :=
  fst <$> list_find (λ q, q = p) l.

(** Modelled from the spec: [Relationships.AddAutoRelationship], whose
    code is not part of this package: it appends one entry, with a newly
    assigned identifier, to the set the handle refers to.  Through the
    zero handle there is no set to append to: a nil dereference. *)
Definition AddAutoRelationship (r : Relationships) (dt : DocType) (idx : Z)
    (ctype : string) : M Relationship := λ σ,
  match Rels_x r with
  | None => Panic
  | Some l =>
      rels ← deref (relsets σ) l;
      let rel := mkRelationship (assign_id rels) dt idx ctype in
      Ok (rel, set_relsets (insert l (rels ++ [rel])) σ)
  end.

Definition SetDrawing (s : Sheet) (d : DrawingH) : M unit := λ σ,
  wbk ← deref (workbooks σ) (Sheet_w s);
  rel ← match index_ptr (Sheet_ws s) (xws wbk) with
        | Some i =>
            match xwsRels wbk !! i with
            | Some rel => Ok rel
            | None => Panic
            end
        | None => Ok zero_Relationships
        end;
  dwb ← deref (workbooks σ) (Drawing_wb d);
  '(drawingID, σ1) ←
      match index_ptr (Drawing_x d) (drawings dwb) with
      | Some i =>
          '(rel', σ1) ← AddAutoRelationship rel DocTypeSpreadsheet
                          (Z.of_nat i + 1) DrawingType σ;
          Ok (Rel_ID rel', σ1)
      | None => Ok (""%string, σ)
      end;
  wks ← deref (worksheets σ1) (Sheet_ws s);
  let wks' := mkWorksheet (SheetData_Row wks) (Some (mkCT_Drawing drawingID)) in
  Ok (tt, set_worksheets (insert (Sheet_ws s) wks') σ1).

(** ** Vocabulary that depends on the collaborators *)

(** What [Validate] returns once the row scan found nothing. *)
Definition delegated (s : Sheet) (σ : Store) : option error * list call :=
  match CT_Sheet_Validate σ (Sheet_x s) with
  | Some err => (Some (Delegated err), [Call_CT_Sheet_Validate])
  | None => (Delegated <$> Worksheet_Validate σ (Sheet_ws s),
             [Call_CT_Sheet_Validate; Call_Worksheet_Validate])
  end.

(** The entry [SetDrawing] registers for the drawing found at position [j],
    in a set that holds [rels]. *)
Definition drawing_relationship (rels : list Relationship) (j : nat) : Relationship :=
  mkRelationship (assign_id rels) DocTypeSpreadsheet (Z.of_nat j + 1) DrawingType.

End Sheet.

(** ** Vocabulary of the statements *)

(** The explicit number of the row behind a pointer. *)
Definition number_of (σ : Store) (r : loc) : option Z := rows σ !! r ≫= Row_RAttr.

(** The explicit addresses of the cells of a row, in stored order. *)
Definition cell_refs (row : CT_Row) : list string := omap Cell_RAttr (Row_C row).

(** Every pointer of the row slice is a row of the store (none is nil). *)
Definition rows_allocated (σ : Store) (rs : list loc) : Prop :=
  Forall (λ r, is_Some (rows σ !! r)) rs.

(** The explicit row numbers of a row slice, in stored order. *)
Definition explicit_numbers (σ : Store) (rs : list loc) : list Z := omap (number_of σ) rs.

(** [a] is found at two positions of [l]. *)
Definition occurs_twice {A : Type} (a : A) (l : list A) : Prop :=
  ∃ i j, i < j ∧ l !! i = Some a ∧ l !! j = Some a.

(** The largest of a list of row numbers, 0 for none. *)
Definition max_number (l : list Z) : Z := foldr Z.max 0%Z l.

(** The store [AddNumberedRow] leaves behind, written out. *)
Definition with_new_row (s : Sheet) (n : Z) (wks : Worksheet) (σ : Store) : Store :=
  let r := fresh (dom (rows σ)) in
  set_worksheets (insert (Sheet_ws s) (mkWorksheet (SheetData_Row wks ++ [r]) (Drawing wks)))
    (set_rows (insert r (mkCT_Row (Some n) [])) σ).

(** Appending numbered rows one after the other. *)
Fixpoint add_numbered_rows (s : Sheet) (ns : list Z) (σ : Store) : result Store :=
  match ns with
  | [] => Ok σ
  | n :: ns' => '(_, σ') ← AddNumberedRow s n σ; add_numbered_rows s ns' σ'
  end.

(** The explicit numbers behind a list of row handles. *)
Definition numbers_of_handles (σ : Store) (hs : list Row) : list (option Z) :=
  map (λ h, number_of σ (Row_x h)) hs.

(** Some explicit row number is carried by two rows of the slice. *)
Definition row_number_reused (σ : Store) (rs : list loc) (n : Z) : Prop :=
  occurs_twice n (explicit_numbers σ rs).

(** Some explicit address is carried by two cells of one row of the slice. *)
Definition cell_ref_reused (σ : Store) (rs : list loc) (a : string) : Prop :=
  ∃ r row, r ∈ rs ∧ rows σ !! r = Some row ∧ occurs_twice a (cell_refs row).

(** No row of the slice repeats an address, as a test. *)
Definition no_cell_reuse_b (σ : Store) (rs : list loc) : bool :=
  forallb (λ r, from_option (λ row, bool_decide (NoDup (cell_refs row))) true (rows σ !! r)) rs.

(** The drawing reference [SetDrawing] writes, on a store. *)
Definition with_drawing (s : Sheet) (wks : Worksheet) (id : string) (σ : Store) : Store :=
  set_worksheets
    (insert (Sheet_ws s) (mkWorksheet (SheetData_Row wks) (Some (mkCT_Drawing id)))) σ.

(** ** Concrete sheets *)

(** A handle on sheet, metadata and worksheet number 1, and on drawing 1. *)
Definition sheet1 : Sheet := mkSheet 1 1 1.
Definition drawing1 : DrawingH := mkDrawing 1 1.

(** A workbook that tracks worksheet 1, with relationship set 1, and drawing 1. *)
Definition book : Workbook :=
  mkWorkbook [1%positive] [mkRelationships (Some 1%positive)] [1%positive].

(** A workbook that tracks drawing 1 but no worksheet. *)
Definition book_without_sheet : Workbook := mkWorkbook [] [] [1%positive].

(** A workbook that tracks worksheet 1 but no drawing. *)
Definition book_without_drawing : Workbook :=
  mkWorkbook [1%positive] [mkRelationships (Some 1%positive)] [].

(** The store of one workbook with the sheet named Sheet1, the given rows and
    the given row slice; relationship set 1 is empty. *)
Definition store_of (wbk : Workbook) (rws : list (loc * CT_Row)) (slice : list loc) : Store :=
  mkStore {[1%positive := wbk]} {[1%positive := mkCT_Sheet "Sheet1"]}
          {[1%positive := mkWorksheet slice None]} (list_to_map rws) {[1%positive := []]}.

Definition cell (a : string) : CT_Cell := mkCell (Some a).

(** Two rows numbered 3. *)
Definition rows_3_3 : Store :=
  store_of book [(1%positive, mkCT_Row (Some 3%Z) []); (2%positive, mkCT_Row (Some 3%Z) [])]
           [1%positive; 2%positive].

(** One row with two cells addressed A1. *)
Definition row_A1_A1 : Store :=
  store_of book [(1%positive, mkCT_Row (Some 1%Z) [cell "A1"; cell "A1"])] [1%positive].

(** Rows numbered 1, 2 and 5 with distinct addresses within each row, A1
    being used in two rows, followed by two rows without number, the first
    with two cells without address. *)
Definition rows_1_2_5 : Store :=
  store_of book
    [(1%positive, mkCT_Row (Some 1%Z) [cell "A1"; cell "B1"]);
     (2%positive, mkCT_Row (Some 2%Z) [cell "A1"; cell "A2"]);
     (3%positive, mkCT_Row (Some 5%Z) [cell "A5"]);
     (4%positive, mkCT_Row None [mkCell None; mkCell None]);
     (5%positive, mkCT_Row None [])]
    [1%positive; 2%positive; 3%positive; 4%positive; 5%positive].

(** A row numbered 1 that repeats A1, followed by a second row numbered 1. *)
Definition rows_1A1A1_1 : Store :=
  store_of book
    [(1%positive, mkCT_Row (Some 1%Z) [cell "A1"; cell "A1"]);
     (2%positive, mkCT_Row (Some 1%Z) [])]
    [1%positive; 2%positive].

(** A single row that carries the largest 32-bit number. *)
Definition row_max : Store :=
  store_of book [(1%positive, mkCT_Row (Some 4294967295%Z) [])] [1%positive].

(** Rows without number only. *)
Definition rows_unnumbered : Store :=
  store_of book [(1%positive, mkCT_Row None []); (2%positive, mkCT_Row None [cell "A1"])]
           [1%positive; 2%positive].

(** Validators that accept everything, and one that rejects. *)
Definition accept : Store → loc → option string := λ _ _, None.
Definition accept_path : Store → loc → string → option string := λ _ _ _, None.
Definition reject (msg : string) : Store → loc → option string := λ _ _, Some msg.

(** An identifier scheme and a type tag for the relationship registry. *)
Definition rId (rels : list Relationship) : string :=
  "rId" +:+ pretty (Z.of_nat (length rels) + 1)%Z.
Definition drawing_tag : string :=
  "http://schemas.openxmlformats.org/officeDocument/2006/relationships/drawing".

(** ** Vocabulary of the further properties *)

(** The row slice of the sheet's worksheet tree, empty behind a nil pointer. *)
Definition sheet_rows (σ : Store) (s : Sheet) : list loc :=
  from_option SheetData_Row [] (worksheets σ !! Sheet_ws s).

(** Neither a row number nor, within a row, an address is reused: what the
    two loops of [Validate] look for is absent. *)
Definition duplicate_free (σ : Store) (rs : list loc) : Prop :=
  (¬ ∃ n, row_number_reused σ rs n) ∧ (¬ ∃ a, cell_ref_reused σ rs a).

(** [k] calls of [AddRow] in a row, with the handles they return. *)
Fixpoint add_rows (s : Sheet) (k : nat) (σ : Store) : result (list Row * Store) :=
  match k with
  | O => Ok ([], σ)
  | S k' =>
      '(r, σ1) ← AddRow s σ;
      '(hs, σ') ← add_rows s k' σ1;
      Ok (r :: hs, σ')
  end.

(** [a] is the first element of [l] that repeats an earlier one. *)
Definition first_repeat {A : Type} (a : A) (l : list A) : Prop :=
  ∃ l1 l2, l = l1 ++ a :: l2 ∧ NoDup l1 ∧ a ∈ l1.

(** ** Basic facts *)

(** Unfolding of the monadic bind, and evaluation on concrete stores. *)
Ltac unfold_bind := unfold mbind, result_bind, mret, result_ret, deref in *.
Ltac by_eval := vm_compute; reflexivity.
Ltac by_decision :=
  match goal with
  | |- ?P => apply (@bool_decide_unpack P _); vm_compute; exact I
  end.
Ltac allocated := unfold rows_allocated; by_decision.

Lemma fresh_row_unallocated (σ : Store) : rows σ !! fresh (dom (rows σ)) = None.
Proof. apply not_elem_of_dom, is_fresh. Qed.

Lemma fresh_row_not_in (σ : Store) (rs : list loc) :
  rows_allocated σ rs → fresh (dom (rows σ)) ∉ rs.
Proof.
  intros Hall Hin.
  pose proof (proj1 (Forall_forall _ _) Hall _ Hin) as [row Hrow].
  rewrite fresh_row_unallocated in Hrow. discriminate.
Qed.

Lemma occurs_twice_NoDup {A : Type} (l : list A) :
  NoDup l ↔ ¬ ∃ a, occurs_twice a l.
Proof.
  rewrite NoDup_alt. split.
  - intros Hnd (a & i & j & Hlt & Hi & Hj).
    specialize (Hnd i j a Hi Hj). lia.
  - intros Hno i j a Hi Hj.
    destruct (Nat.lt_trichotomy i j) as [Hlt | [Heq | Hgt]]; [|done|].
    + exfalso. apply Hno. by exists a, i, j.
    + exfalso. apply Hno. by exists a, j, i.
Qed.

Lemma occurs_twice_cons {A : Type} (a b : A) (l : list A) :
  occurs_twice a (b :: l) ↔ (a = b ∧ a ∈ l) ∨ occurs_twice a l.
Proof.
  split.
  - intros (i & j & Hlt & Hi & Hj).
    destruct j as [|j]; [lia|]. simpl in Hj.
    destruct i as [|i]; simpl in Hi.
    + left. split; [congruence|]. by eapply list_elem_of_lookup_2.
    + right. exists i, j. split_and!; [lia|done..].
  - intros [[-> Hin] | (i & j & Hlt & Hi & Hj)].
    + apply list_elem_of_lookup_1 in Hin as [j Hj].
      exists 0, (S j). split_and!; [lia|done..].
    + exists (S i), (S j). split_and!; [lia|done..].
Qed.

(** ** The scan of [EnsureRow] *)

Lemma has_number_true (n : Z) (row : CT_Row) :
  has_number n row = true ↔ Row_RAttr row = Some n.
Proof.
  unfold has_number. destruct (Row_RAttr row) as [m|]; [|split; discriminate].
  rewrite bool_decide_eq_true. split; congruence.
Qed.

Lemma find_row_total (σ : Store) (n : Z) (rs : list loc) :
  rows_allocated σ rs → ∃ found, find_row σ n rs = Ok found.
Proof.
  induction 1 as [|r rs [row Hrow] _ IH]; simpl; [by eexists|].
  unfold_bind. rewrite Hrow.
  destruct (has_number n row); [by eexists | exact IH].
Qed.

Lemma find_row_Some (σ : Store) (n : Z) (rs : list loc) (r : loc) :
  find_row σ n rs = Ok (Some r) →
  ∃ i, rs !! i = Some r ∧ number_of σ r = Some n ∧
       ∀ j q, j < i → rs !! j = Some q → number_of σ q ≠ Some n.
Proof.
  induction rs as [|p rs IH]; simpl; [discriminate|].
  unfold_bind. destruct (rows σ !! p) as [row|] eqn:Hrow; [|discriminate].
  destruct (has_number n row) eqn:Hn.
  - intros [= <-]. exists 0. split_and!; [done| |intros; lia].
    unfold number_of. rewrite Hrow. simpl. by apply has_number_true.
  - intros (i & Hi & Hnum & Hmin)%IH. exists (S i). split_and!; [done..|].
    intros [|j] q Hlt Hq; simpl in Hq.
    + injection Hq as <-. unfold number_of. rewrite Hrow. simpl.
      intros Heq%has_number_true. congruence.
    + apply (Hmin j); [lia|done].
Qed.

Lemma find_row_None (σ : Store) (n : Z) (rs : list loc) :
  find_row σ n rs = Ok None →
  rows_allocated σ rs ∧ ∀ q, q ∈ rs → number_of σ q ≠ Some n.
Proof.
  induction rs as [|p rs IH]; simpl.
  - intros _. split; [constructor|]. intros q Hq. by apply elem_of_nil in Hq.
  - unfold_bind. destruct (rows σ !! p) as [row|] eqn:Hrow; [|discriminate].
    destruct (has_number n row) eqn:Hn; [discriminate|].
    intros [Hall Hne]%IH. split; [constructor; eauto|].
    intros q [->|Hq]%elem_of_cons; [|by apply Hne].
    unfold number_of. rewrite Hrow. simpl.
    intros Heq%has_number_true. congruence.
Qed.

Lemma find_row_unnumbered (σ : Store) (n : Z) (rs : list loc) :
  rows_allocated σ rs → (∀ q, q ∈ rs → number_of σ q ≠ Some n) →
  find_row σ n rs = Ok None.
Proof.
  induction 1 as [|r rs [row Hrow] _ IH]; simpl; [done|].
  intros Hne. unfold_bind. rewrite Hrow.
  destruct (has_number n row) eqn:Hn.
  - exfalso. apply (Hne r); [left|].
    unfold number_of. rewrite Hrow. simpl. by apply has_number_true.
  - apply IH. intros q Hq. apply Hne. by right.
Qed.

(** The scan only reads the rows behind the pointers it walks. *)
Lemma find_row_agree (σ σ' : Store) (n : Z) (rs : list loc) :
  (∀ q, q ∈ rs → rows σ' !! q = rows σ !! q) →
  find_row σ' n rs = find_row σ n rs.
Proof.
  induction rs as [|p rs IH]; simpl; [done|].
  intros Hag. unfold_bind. rewrite (Hag p) by left.
  destruct (rows σ !! p) as [row|]; [|done].
  destruct (has_number n row); [done|].
  apply IH. intros q Hq. apply Hag. by right.
Qed.

Lemma find_row_app_None (σ : Store) (n : Z) (l1 l2 : list loc) :
  find_row σ n l1 = Ok None → find_row σ n (l1 ++ l2) = find_row σ n l2.
Proof.
  induction l1 as [|p l1 IH]; simpl; [done|].
  unfold_bind. destruct (rows σ !! p) as [row|]; [|discriminate].
  destruct (has_number n row); [discriminate|]. exact IH.
Qed.

(** ** [AddNumberedRow] *)

Lemma AddNumberedRow_Ok (s : Sheet) (n : Z) (σ : Store) (wks : Worksheet) :
  worksheets σ !! Sheet_ws s = Some wks →
  AddNumberedRow s n σ
  = Ok (mkRow (Sheet_w s) (fresh (dom (rows σ))), with_new_row s n wks σ).
Proof.
  intros Hws. unfold AddNumberedRow. unfold_bind. simpl. by rewrite Hws.
Qed.

Lemma AddNumberedRow_Panic (s : Sheet) (n : Z) (σ : Store) :
  worksheets σ !! Sheet_ws s = None → AddNumberedRow s n σ = Panic.
Proof.
  intros Hws. unfold AddNumberedRow. unfold_bind. simpl. by rewrite Hws.
Qed.

Lemma with_new_row_number (s : Sheet) (n : Z) (wks : Worksheet) (σ : Store) :
  number_of (with_new_row s n wks σ) (fresh (dom (rows σ))) = Some n.
Proof. unfold number_of, with_new_row. simpl. by rewrite lookup_insert_eq. Qed.

Lemma with_new_row_old (s : Sheet) (n : Z) (wks : Worksheet) (σ : Store) (p : loc) :
  p ≠ fresh (dom (rows σ)) → rows (with_new_row s n wks σ) !! p = rows σ !! p.
Proof. intros Hne. unfold with_new_row. simpl. by rewrite lookup_insert_ne. Qed.

Lemma with_new_row_allocated (s : Sheet) (n : Z) (wks : Worksheet) (σ : Store) (p : loc)
    (row : CT_Row) :
  rows σ !! p = Some row → rows (with_new_row s n wks σ) !! p = Some row.
Proof.
  intros Hp. rewrite with_new_row_old; [done|].
  intros ->. rewrite fresh_row_unallocated in Hp. discriminate.
Qed.

(** C6: [AddNumberedRow] called with [n] on a sheet whose worksheet pointer is
    valid returns normally, whatever rows the sheet already holds (a row
    numbered [n] included): it appends to the end of the row slice exactly one
    pointer, to a newly allocated row that carries the explicit number [n] and
    no cell; every row stored before keeps its number and its cells, the
    slice keeps its earlier pointers in order, nothing else in the store
    changes, and the handle returned wraps the new row. *)
Theorem AddNumberedRow_appends (s : Sheet) (n : Z) (σ : Store) (wks : Worksheet) :
  worksheets σ !! Sheet_ws s = Some wks →
  ∃ (r : loc) (σ' : Store),
    AddNumberedRow s n σ = Ok (mkRow (Sheet_w s) r, σ') ∧
    rows σ !! r = None ∧
    worksheets σ' !! Sheet_ws s
      = Some (mkWorksheet (SheetData_Row wks ++ [r]) (Drawing wks)) ∧
    rows σ' !! r = Some (mkCT_Row (Some n) []) ∧
    (∀ p row, rows σ !! p = Some row → rows σ' !! p = Some row) ∧
    (∀ p, p ≠ r → rows σ' !! p = rows σ !! p) ∧
    (∀ q, q ≠ Sheet_ws s → worksheets σ' !! q = worksheets σ !! q) ∧
    workbooks σ' = workbooks σ ∧ sheets σ' = sheets σ ∧ relsets σ' = relsets σ.
Proof.
  intros Hws. exists (fresh (dom (rows σ))), (with_new_row s n wks σ).
  split_and!.
  - by apply AddNumberedRow_Ok.
  - apply fresh_row_unallocated.
  - unfold with_new_row. simpl. by rewrite lookup_insert_eq.
  - unfold with_new_row. simpl. by rewrite lookup_insert_eq.
  - intros p row. apply with_new_row_allocated.
  - intros p. apply with_new_row_old.
  - intros q Hq. unfold with_new_row. simpl. by rewrite lookup_insert_ne.
  - done.
  - done.
  - done.
Qed.

(** ** [EnsureRow] *)

Lemma EnsureRow_found (s : Sheet) (n : Z) (σ : Store) (wks : Worksheet) (r : loc) :
  worksheets σ !! Sheet_ws s = Some wks →
  find_row σ n (SheetData_Row wks) = Ok (Some r) →
  EnsureRow s n σ = Ok (mkRow (Sheet_w s) r, σ).
Proof.
  intros Hws Hfind. unfold EnsureRow. unfold_bind. by rewrite Hws, Hfind.
Qed.

Lemma EnsureRow_missing (s : Sheet) (n : Z) (σ : Store) (wks : Worksheet) :
  worksheets σ !! Sheet_ws s = Some wks →
  find_row σ n (SheetData_Row wks) = Ok None →
  EnsureRow s n σ = AddNumberedRow s n σ.
Proof.
  intros Hws Hfind. unfold EnsureRow. unfold_bind. by rewrite Hws, Hfind.
Qed.

(** After a row was appended for [n], the scan finds that very row. *)
Lemma find_row_with_new_row (s : Sheet) (n : Z) (σ : Store) (wks : Worksheet) :
  find_row σ n (SheetData_Row wks) = Ok None →
  find_row (with_new_row s n wks σ) n (SheetData_Row wks ++ [fresh (dom (rows σ))])
  = Ok (Some (fresh (dom (rows σ)))).
Proof.
  intros Hfind. pose proof (find_row_None _ _ _ Hfind) as [Hall _].
  rewrite find_row_app_None.
  - simpl. unfold_bind. unfold with_new_row. simpl.
    rewrite lookup_insert_eq. unfold has_number. simpl.
    by rewrite bool_decide_eq_true_2.
  - rewrite <- Hfind. apply find_row_agree. intros q Hq.
    apply with_new_row_old. intros ->. by eapply fresh_row_not_in.
Qed.

(** C4: on a sheet whose worksheet and row pointers are valid, [EnsureRow n]
    returns a handle and a store on which a second [EnsureRow n] returns the
    same handle and leaves that store as it is, so the row slice does not grow;
    the handle is the first row of the slice, in stored order, whose explicit
    number is [n], the store being untouched, or, when no row carries [n], the
    row that [AddNumberedRow n] appends. *)
Theorem EnsureRow_idempotent (s : Sheet) (n : Z) (σ : Store) (wks : Worksheet) :
  worksheets σ !! Sheet_ws s = Some wks →
  rows_allocated σ (SheetData_Row wks) →
  ∃ (r : Row) (σ1 : Store),
    EnsureRow s n σ = Ok (r, σ1) ∧
    EnsureRow s n σ1 = Ok (r, σ1) ∧
    ((∃ i, SheetData_Row wks !! i = Some (Row_x r) ∧
           number_of σ (Row_x r) = Some n ∧
           (∀ j q, j < i → SheetData_Row wks !! j = Some q → number_of σ q ≠ Some n) ∧
           Row_w r = Sheet_w s ∧ σ1 = σ)
     ∨
     ((∀ q, q ∈ SheetData_Row wks → number_of σ q ≠ Some n) ∧
      AddNumberedRow s n σ = Ok (r, σ1) ∧
      worksheets σ1 !! Sheet_ws s
        = Some (mkWorksheet (SheetData_Row wks ++ [Row_x r]) (Drawing wks)))).
Proof.
  intros Hws Hall.
  destruct (find_row_total σ n _ Hall) as [[r|] Hfind].
  - exists (mkRow (Sheet_w s) r), σ.
    pose proof (EnsureRow_found _ _ _ _ _ Hws Hfind) as HE.
    split_and!; [done..|]. left.
    destruct (find_row_Some _ _ _ _ Hfind) as (i & Hi & Hnum & Hmin).
    exists i. by split_and!.
  - exists (mkRow (Sheet_w s) (fresh (dom (rows σ)))), (with_new_row s n wks σ).
    pose proof (AddNumberedRow_Ok s n σ wks Hws) as HA.
    split_and!.
    + by rewrite (EnsureRow_missing _ _ _ _ Hws Hfind).
    + eapply EnsureRow_found.
      * unfold with_new_row. simpl. by rewrite lookup_insert_eq.
      * simpl. by apply find_row_with_new_row.
    + right. split_and!; [by apply find_row_None|done|].
      unfold with_new_row. simpl. by rewrite lookup_insert_eq.
Qed.

(** C9: [EnsureRow n] never hands out a row that has no explicit number: on a
    sheet whose worksheet and row pointers are valid it returns a handle whose
    row carries the explicit number [n] in the resulting store, a row that
    was stored without a number is never the one returned, and when no stored
    row has a number the handle is a newly appended row. *)
Theorem EnsureRow_skips_unnumbered (s : Sheet) (n : Z) (σ : Store) (wks : Worksheet) :
  worksheets σ !! Sheet_ws s = Some wks →
  rows_allocated σ (SheetData_Row wks) →
  ∃ (r : Row) (σ1 : Store),
    EnsureRow s n σ = Ok (r, σ1) ∧
    number_of σ1 (Row_x r) = Some n ∧
    (∀ q, q ∈ SheetData_Row wks → number_of σ q = None → Row_x r ≠ q) ∧
    ((∀ q, q ∈ SheetData_Row wks → number_of σ q = None) →
       rows σ !! Row_x r = None ∧
       EnsureRow s n σ = AddNumberedRow s n σ ∧
       worksheets σ1 !! Sheet_ws s
         = Some (mkWorksheet (SheetData_Row wks ++ [Row_x r]) (Drawing wks))).
Proof.
  intros Hws Hall.
  destruct (find_row_total σ n _ Hall) as [[r|] Hfind].
  - exists (mkRow (Sheet_w s) r), σ.
    destruct (find_row_Some _ _ _ _ Hfind) as (i & Hi & Hnum & Hmin).
    split_and!; [by eapply EnsureRow_found|done| |].
    + simpl. intros q _ Hq ->. congruence.
    + intros Hnone. apply list_elem_of_lookup_2 in Hi.
      rewrite (Hnone _ Hi) in Hnum. discriminate.
  - exists (mkRow (Sheet_w s) (fresh (dom (rows σ)))), (with_new_row s n wks σ).
    rewrite (EnsureRow_missing _ _ _ _ Hws Hfind).
    split_and!.
    + by apply AddNumberedRow_Ok.
    + apply with_new_row_number.
    + simpl. intros q Hq _ <-. by eapply fresh_row_not_in.
    + intros _. split_and!; [apply fresh_row_unallocated|done|].
      unfold with_new_row. simpl. by rewrite lookup_insert_eq.
Qed.

(** ** [AddRow] *)

Lemma max_number_nonneg (l : list Z) : (0 ≤ max_number l)%Z.
Proof. induction l as [|n l IH]; simpl; lia. Qed.

Lemma max_number_ge (l : list Z) (n : Z) : n ∈ l → (n ≤ max_number l)%Z.
Proof.
  induction l as [|m l IH]; [by intros ?%elem_of_nil|].
  intros [->|Hin]%elem_of_cons; simpl; [lia|].
  specialize (IH Hin). lia.
Qed.

Lemma wrap32_is_uint32 (z : Z) : is_uint32 (wrap32 z).
Proof. unfold is_uint32, wrap32. apply Z.mod_pos_bound. lia. Qed.

Lemma foldr_max_start (a b : Z) (l : list Z) :
  foldr Z.max (Z.max a b) l = Z.max a (foldr Z.max b l).
Proof. induction l as [|m l IH]; simpl; [done|]. rewrite IH. lia. Qed.

(** The loop of [AddRow] computes the maximum of its start value and of the
    explicit numbers it walks over. *)
Lemma max_row_id_spec (σ : Store) (rs : list loc) :
  rows_allocated σ rs →
  ∀ m, max_row_id σ m rs = Ok (foldr Z.max m (explicit_numbers σ rs)).
Proof.
  induction 1 as [|r rs [row Hrow] _ IH]; intros m; simpl; [done|].
  unfold_bind. rewrite Hrow. unfold explicit_numbers. simpl.
  unfold number_of at 1. rewrite Hrow. simpl.
  destruct (Row_RAttr row) as [n|]; simpl; [|apply IH].
  case_bool_decide as Hgt; rewrite IH; f_equal; fold (explicit_numbers σ rs).
  - rewrite <- foldr_max_start. f_equal. lia.
  - rewrite <- foldr_max_start. f_equal. lia.
Qed.

Lemma AddRow_unfold (s : Sheet) (σ : Store) (wks : Worksheet) :
  worksheets σ !! Sheet_ws s = Some wks →
  rows_allocated σ (SheetData_Row wks) →
  AddRow s σ
  = AddNumberedRow s (wrap32 (max_number (explicit_numbers σ (SheetData_Row wks)) + 1)) σ.
Proof.
  intros Hws Hall. unfold AddRow. unfold_bind. rewrite Hws.
  by rewrite (max_row_id_spec _ _ Hall).
Qed.

(** C5 (amended): on a sheet whose worksheet and row pointers are valid,
    [AddRow] appends one new row whose explicit number is the maximum of the
    explicit row numbers present (0 when there is none), plus one, reduced
    modulo [2^32] as unsigned 32-bit addition does, a 32-bit number again.
    When every explicit
    number present is below [2^32 - 1] the new number is that maximum plus
    one and is strictly greater than each of them; on a sheet without
    numbered rows it is 1. *)
Theorem AddRow_next_number (s : Sheet) (σ : Store) (wks : Worksheet) :
  worksheets σ !! Sheet_ws s = Some wks →
  rows_allocated σ (SheetData_Row wks) →
  let nums := explicit_numbers σ (SheetData_Row wks) in
  ∃ (r : Row) (σ' : Store),
    AddRow s σ = Ok (r, σ') ∧
    rows σ !! Row_x r = None ∧
    worksheets σ' !! Sheet_ws s
      = Some (mkWorksheet (SheetData_Row wks ++ [Row_x r]) (Drawing wks)) ∧
    number_of σ' (Row_x r) = Some (wrap32 (max_number nums + 1)) ∧
    is_uint32 (wrap32 (max_number nums + 1)) ∧
    ((∀ n, n ∈ nums → (n < 2 ^ 32 - 1)%Z) →
       number_of σ' (Row_x r) = Some (max_number nums + 1)%Z ∧
       ∀ n, n ∈ nums → (n < max_number nums + 1)%Z) ∧
    (nums = [] → number_of σ' (Row_x r) = Some 1%Z).
Proof.
  intros Hws Hall nums.
  exists (mkRow (Sheet_w s) (fresh (dom (rows σ)))).
  eexists. rewrite (AddRow_unfold _ _ _ Hws Hall).
  split; [by apply AddNumberedRow_Ok|]. fold nums. simpl.
  split_and!.
  - apply fresh_row_unallocated.
  - unfold with_new_row. simpl. by rewrite lookup_insert_eq.
  - apply with_new_row_number.
  - apply wrap32_is_uint32.
  - intros Hlt. rewrite with_new_row_number.
    assert (max_number nums < 2 ^ 32 - 1)%Z as Hmax.
    { clear -Hlt. induction nums as [|m l IH]; simpl; [lia|].
      assert (m < 2 ^ 32 - 1)%Z by (apply Hlt; left).
      assert (max_number l < 2 ^ 32 - 1)%Z.
      { apply IH. intros k Hk. apply Hlt. by right. }
      unfold max_number in *. lia. }
    pose proof (max_number_nonneg nums). split.
    + unfold wrap32. rewrite Z.mod_small; [done|lia].
    + intros k Hk%max_number_ge. lia.
  - intros ->. by rewrite with_new_row_number.
Qed.

(** ** [Rows] *)

Lemma foldl_append_map {A B : Type} (f : A → B) (l : list A) (acc : list B) :
  foldl (λ ret a, ret ++ [f a]) acc l = acc ++ map f l.
Proof.
  revert acc. induction l as [|a l IH]; intros acc; simpl.
  - by rewrite app_nil_r.
  - rewrite IH. by rewrite <- app_assoc.
Qed.

Lemma Rows_map (s : Sheet) (σ : Store) (wks : Worksheet) :
  worksheets σ !! Sheet_ws s = Some wks →
  Rows s σ = Ok (map (mkRow (Sheet_w s)) (SheetData_Row wks)).
Proof.
  intros Hws. unfold Rows. unfold_bind. rewrite Hws. by rewrite foldl_append_map.
Qed.

Lemma add_numbered_rows_spec (s : Sheet) (ns : list Z) :
  ∀ (σ : Store) (wks : Worksheet),
    worksheets σ !! Sheet_ws s = Some wks →
    rows_allocated σ (SheetData_Row wks) →
    ∃ (σ' : Store) (new : list loc),
      add_numbered_rows s ns σ = Ok σ' ∧
      worksheets σ' !! Sheet_ws s
        = Some (mkWorksheet (SheetData_Row wks ++ new) (Drawing wks)) ∧
      rows_allocated σ' (SheetData_Row wks ++ new) ∧
      map (number_of σ') new = map Some ns ∧
      (∀ p row, rows σ !! p = Some row → rows σ' !! p = Some row).
Proof.
  induction ns as [|n ns IH]; intros σ wks Hws Hall; simpl.
  - exists σ, []. rewrite app_nil_r. split_and!; [done| |done..].
    rewrite Hws. by destruct wks.
  - rewrite (AddNumberedRow_Ok _ _ _ _ Hws). unfold_bind.
    set (r := fresh (dom (rows σ))). set (σ1 := with_new_row s n wks σ).
    assert (worksheets σ1 !! Sheet_ws s
            = Some (mkWorksheet (SheetData_Row wks ++ [r]) (Drawing wks))) as Hws1.
    { unfold σ1, with_new_row. simpl. by rewrite lookup_insert_eq. }
    assert (rows_allocated σ1 (SheetData_Row wks ++ [r])) as Hall1.
    { apply Forall_app. split.
      - eapply Forall_impl; [exact Hall|]. intros p [row Hp].
        exists row. by apply with_new_row_allocated.
      - constructor; [|constructor]. unfold σ1, r, with_new_row. simpl.
        rewrite lookup_insert_eq. by eexists. }
    assert (rows σ1 !! r = Some (mkCT_Row (Some n) [])) as Hr.
    { unfold σ1, r, with_new_row. simpl. by rewrite lookup_insert_eq. }
    destruct (IH σ1 _ Hws1 Hall1) as (σ' & new & Hrun & Hws' & Hall' & Hnum & Hold).
    exists σ', (r :: new).
    simpl in Hws', Hall'. rewrite <- app_assoc in Hws', Hall'.
    split_and!; [done..| |].
    + simpl. f_equal; [|done]. unfold number_of. by rewrite (Hold _ _ Hr).
    + intros p row Hp. apply Hold. by apply with_new_row_allocated.
Qed.

(** C7: [Rows] returns one handle per pointer of the worksheet's row slice,
    in the stored order, each carrying the sheet's workbook; the numbers play
    no part in the order: after rows numbered 5, 2 and 8 are appended in that
    order, the handles returned end with rows numbered 5, 2 and 8 in that
    order, behind the rows stored before. *)
Theorem Rows_in_stored_order (s : Sheet) (σ : Store) (wks : Worksheet) :
  worksheets σ !! Sheet_ws s = Some wks →
  rows_allocated σ (SheetData_Row wks) →
  (∃ hs, Rows s σ = Ok hs ∧
         length hs = length (SheetData_Row wks) ∧
         ∀ i, hs !! i = mkRow (Sheet_w s) <$> SheetData_Row wks !! i) ∧
  (∃ σ' hs hs',
     Rows s σ = Ok hs ∧
     add_numbered_rows s [5; 2; 8]%Z σ = Ok σ' ∧
     Rows s σ' = Ok hs' ∧
     numbers_of_handles σ' hs'
       = numbers_of_handles σ hs ++ [Some 5; Some 2; Some 8]%Z).
Proof.
  intros Hws Hall. split.
  - eexists. split; [by apply Rows_map|]. split.
    + by rewrite length_map.
    + intros i. by rewrite list_lookup_fmap.
  - destruct (add_numbered_rows_spec s [5; 2; 8]%Z σ wks Hws Hall)
      as (σ' & new & Hrun & Hws' & Hall' & Hnum & Hold).
    exists σ', (map (mkRow (Sheet_w s)) (SheetData_Row wks)),
      (map (mkRow (Sheet_w s)) (SheetData_Row wks ++ new)).
    split_and!; [by apply Rows_map|done|by rewrite (Rows_map _ _ _ Hws')|].
    unfold numbers_of_handles. rewrite !map_map, map_app. simpl.
    f_equal; [|done].
    apply map_ext_in. intros p Hp%list_elem_of_In.
    pose proof (proj1 (Forall_forall _ _) Hall _ Hp) as [row Hrow].
    unfold number_of. by rewrite Hrow, (Hold _ _ Hrow).
Qed.

(** ** The scans of [Validate] *)

Lemma scan_cells_None (cs : list CT_Cell) :
  ∀ used, scan_cells used cs = None ↔
          NoDup (omap Cell_RAttr cs) ∧ ∀ a, a ∈ omap Cell_RAttr cs → a ∉ used.
Proof.
  induction cs as [|c cs IH]; intros used; simpl.
  - split; [|done]. intros _. split; [constructor|]. by intros a ?%elem_of_nil.
  - destruct (Cell_RAttr c) as [a|]; simpl; [|apply IH].
    case_bool_decide as Hin.
    + split; [discriminate|]. intros [_ Hnot]. exfalso. apply (Hnot a); [left|done].
    + rewrite IH, NoDup_cons. set_solver.
Qed.

Lemma scan_cells_Some (cs : list CT_Cell) :
  ∀ used a, scan_cells used cs = Some a →
            a ∈ omap Cell_RAttr cs ∧ (a ∈ used ∨ occurs_twice a (omap Cell_RAttr cs)).
Proof.
  induction cs as [|c cs IH]; intros used a; simpl; [discriminate|].
  destruct (Cell_RAttr c) as [b|]; simpl; [|apply IH].
  case_bool_decide as Hin.
  - intros [= <-]. split; [left|by left].
  - intros [Ha Hor]%IH. split; [by right|].
    rewrite occurs_twice_cons.
    destruct Hor as [[->%elem_of_singleton | Hu]%elem_of_union | Htw]; auto.
Qed.

Lemma scan_cells_empty_Some (row : CT_Row) (a : string) :
  scan_cells ∅ (Row_C row) = Some a → occurs_twice a (cell_refs row).
Proof. intros [_ [Hin | Htw]]%scan_cells_Some; [set_solver | done]. Qed.

Lemma scan_cells_empty_None (row : CT_Row) :
  scan_cells ∅ (Row_C row) = None ↔ NoDup (cell_refs row).
Proof. rewrite scan_cells_None. unfold cell_refs. set_solver. Qed.

Lemma explicit_numbers_cons (σ : Store) (r : loc) (rs : list loc) (row : CT_Row) :
  rows σ !! r = Some row →
  explicit_numbers σ (r :: rs)
  = match Row_RAttr row with
    | Some n => n :: explicit_numbers σ rs
    | None => explicit_numbers σ rs
    end.
Proof.
  intros Hrow. unfold explicit_numbers. simpl.
  unfold number_of at 1. rewrite Hrow. simpl. by destruct (Row_RAttr row).
Qed.

Lemma scan_rows_total (σ : Store) (rs : list loc) :
  rows_allocated σ rs → ∀ used, ∃ res, scan_rows σ used rs = Ok res.
Proof.
  induction 1 as [|r rs [row Hrow] _ IH]; intros used; simpl; [by eexists|].
  unfold_bind. rewrite Hrow.
  destruct (Row_RAttr row) as [n|]; [case_bool_decide|];
    try (by eexists); destruct (scan_cells ∅ (Row_C row)); try (by eexists); apply IH.
Qed.

(** The scan runs to its end exactly when the explicit numbers are pairwise
    distinct and new, and no row repeats an address. *)
Lemma scan_rows_None (σ : Store) (rs : list loc) :
  rows_allocated σ rs →
  ∀ used, scan_rows σ used rs = Ok None ↔
          NoDup (explicit_numbers σ rs) ∧
          (∀ n, n ∈ explicit_numbers σ rs → n ∉ used) ∧
          (∀ r row, r ∈ rs → rows σ !! r = Some row → NoDup (cell_refs row)).
Proof.
  induction 1 as [|r rs [row Hrow] _ IH]; intros used; cbn [scan_rows].
  - simpl. split; [|done]. intros _. split_and!; [constructor|set_solver|set_solver].
  - unfold_bind. rewrite Hrow, (explicit_numbers_cons _ _ _ _ Hrow).
    assert ((∀ p row', p ∈ r :: rs → rows σ !! p = Some row' → NoDup (cell_refs row'))
            ↔ NoDup (cell_refs row) ∧
              ∀ p row', p ∈ rs → rows σ !! p = Some row' → NoDup (cell_refs row'))
      as Hcells.
    { split.
      - intros Hc. split; [apply (Hc r); [left|done]|].
        intros p row' Hp. apply Hc. by right.
      - intros [Hc1 Hc2] p row' [->|Hp]%elem_of_cons Hp'; [congruence|by eapply Hc2]. }
    rewrite Hcells. clear Hcells.
    destruct (Row_RAttr row) as [n|].
    + case_bool_decide as Hin.
      * split; [discriminate|]. intros (_ & Hnot & _). exfalso.
        apply (Hnot n); [left|done].
      * destruct (scan_cells ∅ (Row_C row)) as [a|] eqn:Hsc.
        -- split; [discriminate|]. intros (_ & _ & Hc & _).
           apply scan_cells_empty_None in Hc. congruence.
        -- apply scan_cells_empty_None in Hsc. rewrite IH, NoDup_cons. set_solver.
    + destruct (scan_cells ∅ (Row_C row)) as [a|] eqn:Hsc.
      * split; [discriminate|]. intros (_ & _ & Hc & _).
        apply scan_cells_empty_None in Hc. congruence.
      * apply scan_cells_empty_None in Hsc. rewrite IH. tauto.
Qed.

Lemma scan_rows_ReusedRow_mem (σ : Store) (rs : list loc) (n : Z) :
  ∀ used, scan_rows σ used rs = Ok (Some (ReusedRow n)) → n ∈ explicit_numbers σ rs.
Proof.
  induction rs as [|r rs IH]; intros used; cbn [scan_rows]; [discriminate|].
  unfold_bind. destruct (rows σ !! r) as [row|] eqn:Hrow; [|discriminate].
  rewrite (explicit_numbers_cons _ _ _ _ Hrow).
  destruct (Row_RAttr row) as [m|].
  - case_bool_decide as Hin.
    + intros [= <-]. left.
    + destruct (scan_cells ∅ (Row_C row)); [discriminate|].
      intros Hscan%IH. by right.
  - destruct (scan_cells ∅ (Row_C row)); [discriminate|]. apply IH.
Qed.

Lemma scan_rows_ReusedRow (σ : Store) (rs : list loc) (n : Z) :
  ∀ used, scan_rows σ used rs = Ok (Some (ReusedRow n)) →
          n ∈ used ∨ row_number_reused σ rs n.
Proof.
  unfold row_number_reused.
  induction rs as [|r rs IH]; intros used; cbn [scan_rows]; [discriminate|].
  unfold_bind. destruct (rows σ !! r) as [row|] eqn:Hrow; [|discriminate].
  rewrite (explicit_numbers_cons _ _ _ _ Hrow).
  destruct (Row_RAttr row) as [m|].
  - case_bool_decide as Hin.
    + intros [= <-]. by left.
    + destruct (scan_cells ∅ (Row_C row)); [discriminate|].
      intros Hscan. rewrite occurs_twice_cons.
      pose proof (scan_rows_ReusedRow_mem _ _ _ _ Hscan) as Hmem.
      destruct (IH _ Hscan) as [Hu | Htw]; [|auto].
      apply elem_of_union in Hu as [Heq%elem_of_singleton | Hu]; auto.
  - destruct (scan_cells ∅ (Row_C row)); [discriminate|]. apply IH.
Qed.

Lemma scan_rows_ReusedCell (σ : Store) (rs : list loc) (a : string) :
  ∀ used, scan_rows σ used rs = Ok (Some (ReusedCell a)) → cell_ref_reused σ rs a.
Proof.
  unfold cell_ref_reused.
  induction rs as [|r rs IH]; intros used; cbn [scan_rows]; [discriminate|].
  unfold_bind. destruct (rows σ !! r) as [row|] eqn:Hrow; [|discriminate].
  assert (∀ used', (match scan_cells ∅ (Row_C row) with
                    | Some a0 => Ok (Some (ReusedCell a0))
                    | None => scan_rows σ used' rs
                    end = Ok (Some (ReusedCell a))) →
                   ∃ r0 row0, r0 ∈ r :: rs ∧ rows σ !! r0 = Some row0 ∧
                              occurs_twice a (cell_refs row0)) as Hstep.
  { intros used'. destruct (scan_cells ∅ (Row_C row)) as [b|] eqn:Hsc.
    - intros [= ->]. exists r, row. split_and!; [left|done|].
      by apply scan_cells_empty_Some.
    - intros (r0 & row0 & Hin & Hr0 & Htw)%IH. exists r0, row0.
      split_and!; [by right|done..]. }
  destruct (Row_RAttr row) as [m|]; [|apply Hstep].
  case_bool_decide; [discriminate|apply Hstep].
Qed.

Lemma scan_rows_clean (σ : Store) (rs : list loc) :
  rows_allocated σ rs →
  scan_rows σ ∅ rs = Ok None ↔
  (¬ ∃ n, row_number_reused σ rs n) ∧ (¬ ∃ a, cell_ref_reused σ rs a).
Proof.
  intros Hall. rewrite (scan_rows_None _ _ Hall), occurs_twice_NoDup.
  unfold row_number_reused, cell_ref_reused. split.
  - intros (Hnums & _ & Hcells). split; [done|].
    intros (a & r & row & Hin & Hrow & Htw).
    apply (proj1 (occurs_twice_NoDup _) (Hcells r row Hin Hrow)). by exists a.
  - intros [Hnums Hcells]. split_and!; [done|set_solver|].
    intros r row Hin Hrow. apply occurs_twice_NoDup. intros [a Htw].
    apply Hcells. by exists a, r, row.
Qed.

(** ** [Validate] and [ValidateWithPath] *)

Section Validation.

Variable CT_Sheet_Validate : Store → loc → option string.
Variable Worksheet_Validate : Store → loc → option string.

Lemma Validate_unfold (s : Sheet) (σ : Store) (wks : Worksheet) (meta : CT_Sheet) :
  worksheets σ !! Sheet_ws s = Some wks →
  sheets σ !! Sheet_x s = Some meta →
  Validate CT_Sheet_Validate Worksheet_Validate s σ
  = match scan_rows σ ∅ (SheetData_Row wks) with
    | Ok (Some (ReusedRow n)) => Ok (Some (Errorf_reused_row (NameAttr meta) n), [])
    | Ok (Some (ReusedCell a)) => Ok (Some (Errorf_reused_cell (NameAttr meta) a), [])
    | Ok None => Ok (delegated CT_Sheet_Validate Worksheet_Validate s σ)
    | Panic => Panic
    end.
Proof.
  intros Hws Hx. unfold Validate, Name, delegated. unfold_bind. rewrite Hws, Hx.
  destruct (scan_rows σ ∅ (SheetData_Row wks)) as [[[n|a]|]|]; try done.
  by destruct (CT_Sheet_Validate σ (Sheet_x s)).
Qed.

Lemma delegated_not_reused (s : Sheet) (σ : Store) (e : error) (log : list call) :
  delegated CT_Sheet_Validate Worksheet_Validate s σ = (Some e, log) →
  ∃ msg, e = Delegated msg.
Proof.
  unfold delegated. destruct (CT_Sheet_Validate σ (Sheet_x s)) as [err|].
  - intros [= <- _]. by eexists.
  - destruct (Worksheet_Validate σ (Sheet_ws s)) as [err|]; simpl; [|discriminate].
    intros [= <- _]. by eexists.
Qed.

(** What the outcome of [Validate] tells about reuse, and conversely, without
    regard to which reuse is met first. *)
Lemma duplicate_checks_outcome (s : Sheet) (σ : Store) (wks : Worksheet)
    (meta : CT_Sheet) :
  worksheets σ !! Sheet_ws s = Some wks →
  rows_allocated σ (SheetData_Row wks) →
  sheets σ !! Sheet_x s = Some meta →
  let rs := SheetData_Row wks in
  let name := NameAttr meta in
  let out := Validate CT_Sheet_Validate Worksheet_Validate s σ in
  (∀ name' n log, out = Ok (Some (Errorf_reused_row name' n), log) →
                  name' = name ∧ log = [] ∧ row_number_reused σ rs n) ∧
  (∀ name' a log, out = Ok (Some (Errorf_reused_cell name' a), log) →
                  name' = name ∧ log = [] ∧ cell_ref_reused σ rs a) ∧
  (((∃ n, row_number_reused σ rs n) ∨ (∃ a, cell_ref_reused σ rs a)) ↔
   ((∃ n, out = Ok (Some (Errorf_reused_row name n), [])) ∨
    (∃ a, out = Ok (Some (Errorf_reused_cell name a), [])))) ∧
  ((¬ ∃ a, cell_ref_reused σ rs a) →
     ((∃ n, row_number_reused σ rs n) ↔
      (∃ n, out = Ok (Some (Errorf_reused_row name n), [])))) ∧
  ((¬ ∃ n, row_number_reused σ rs n) →
     ((∃ a, cell_ref_reused σ rs a) ↔
      (∃ a, out = Ok (Some (Errorf_reused_cell name a), [])))) ∧
  ((¬ ∃ n, row_number_reused σ rs n) → (¬ ∃ a, cell_ref_reused σ rs a) →
     out = Ok (delegated CT_Sheet_Validate Worksheet_Validate s σ) ∧
     (CT_Sheet_Validate σ (Sheet_x s) = None →
      Worksheet_Validate σ (Sheet_ws s) = None →
      out = Ok (None, [Call_CT_Sheet_Validate; Call_Worksheet_Validate]))).
Proof.
  intros Hws Hall Hx rs name out.
  pose proof (scan_rows_clean σ rs Hall) as Hclean.
  pose proof (scan_rows_ReusedRow σ rs) as Hrow.
  pose proof (scan_rows_ReusedCell σ rs) as Hcell.
  assert (out = _) as Hout by exact (Validate_unfold s σ wks meta Hws Hx).
  fold rs name in Hout.
  destruct (scan_rows_total σ rs Hall ∅) as [res Hres].
  rewrite Hres in Hout, Hclean.
  destruct res as [[n|a]|].
  - assert (row_number_reused σ rs n) as Hn.
    { destruct (Hrow n ∅ Hres) as [?%elem_of_empty|?]; done. }
    rewrite Hout. split_and!.
    + intros name' m log [= -> -> <-]. done.
    + intros name' m log [=].
    + split; [|by eauto]. intros _. left. by exists n.
    + intros _. split; [|by eauto]. intros _. by exists n.
    + intros Hno. exfalso. apply Hno. by exists n.
    + intros Hno. exfalso. apply Hno. by exists n.
  - assert (cell_ref_reused σ rs a) as Ha by exact (Hcell a ∅ Hres).
    rewrite Hout. split_and!.
    + intros name' m log [=].
    + intros name' m log [= -> -> <-]. done.
    + split; [|by eauto]. intros _. right. by exists a.
    + intros Hno. exfalso. apply Hno. by exists a.
    + intros _. split; [|by eauto]. intros _. by exists a.
    + intros _ Hno. exfalso. apply Hno. by exists a.
  - destruct (proj1 Hclean eq_refl) as [Hnorow Hnocell].
    rewrite Hout.
    assert (∀ e log, Ok (delegated CT_Sheet_Validate Worksheet_Validate s σ) = Ok (Some e, log) →
                     ∃ msg, e = Delegated msg)
      as Hdel.
    { intros e log [= Heq]. by eapply delegated_not_reused. }
    split_and!.
    + intros name' m log [msg [=]]%Hdel.
    + intros name' m log [msg [=]]%Hdel.
    + split; [tauto|]. intros [[m [msg [=]]%Hdel] | [m [msg [=]]%Hdel]].
    + intros _. split; [done|]. intros [m [msg [=]]%Hdel].
    + intros _. split; [done|]. intros [m [msg [=]]%Hdel].
    + intros _ _. split; [done|]. intros H1 H2. unfold delegated.
      by rewrite H1, H2.
Qed.

(** C10: once the duplicate checks have passed, [Validate] calls the
    validator of the sheet metadata record first.  When that one fails its
    error is the result, the validator of the worksheet tree is not called,
    and the result does not depend on it; the validator of the worksheet
    tree is called, second, only after the metadata validator succeeded,
    and decides the result then. *)
Theorem Validate_metadata_first (s : Sheet) (σ : Store) (wks : Worksheet) :
  worksheets σ !! Sheet_ws s = Some wks →
  rows_allocated σ (SheetData_Row wks) →
  (¬ ∃ n, row_number_reused σ (SheetData_Row wks) n) →
  (¬ ∃ a, cell_ref_reused σ (SheetData_Row wks) a) →
  let out := Validate CT_Sheet_Validate Worksheet_Validate s σ in
  (∀ err, CT_Sheet_Validate σ (Sheet_x s) = Some err →
          out = Ok (Some (Delegated err), [Call_CT_Sheet_Validate]) ∧
          ∀ other, Validate CT_Sheet_Validate other s σ = out) ∧
  (CT_Sheet_Validate σ (Sheet_x s) = None →
     out = Ok (Delegated <$> Worksheet_Validate σ (Sheet_ws s),
               [Call_CT_Sheet_Validate; Call_Worksheet_Validate])) ∧
  (∃ e log, out = Ok (e, Call_CT_Sheet_Validate :: log) ∧
            (Call_Worksheet_Validate ∈ log → CT_Sheet_Validate σ (Sheet_x s) = None)).
Proof.
  intros Hws Hall Hnorow Hnocell out.
  assert (scan_rows σ ∅ (SheetData_Row wks) = Ok None) as Hscan.
  { apply scan_rows_clean; [done|]. by split. }
  assert (∀ other, Validate CT_Sheet_Validate other s σ
                   = Ok (match CT_Sheet_Validate σ (Sheet_x s) with
                         | Some err => (Some (Delegated err), [Call_CT_Sheet_Validate])
                         | None => (Delegated <$> other σ (Sheet_ws s),
                                    [Call_CT_Sheet_Validate; Call_Worksheet_Validate])
                         end)) as Hout.
  { intros other. unfold Validate. unfold_bind. rewrite Hws, Hscan.
    by destruct (CT_Sheet_Validate σ (Sheet_x s)). }
  unfold out. split_and!.
  - intros err Herr. split.
    + by rewrite Hout, Herr.
    + intros other. by rewrite !Hout, Herr.
  - intros Hnone. by rewrite Hout, Hnone.
  - rewrite Hout. destruct (CT_Sheet_Validate σ (Sheet_x s)) as [err|].
    + eexists _, []. split; [done|]. by intros ?%elem_of_nil.
    + by eexists _, _.
Qed.

End Validation.

(** ** [SetDrawing] *)

Lemma index_ptr_Some (p : loc) (l : list loc) (i : nat) :
  index_ptr p l = Some i ↔ l !! i = Some p ∧ ∀ j, j < i → l !! j ≠ Some p.
Proof.
  unfold index_ptr. split.
  - destruct (list_find (λ q, q = p) l) as [[k q]|] eqn:Hfind; simpl; [|discriminate].
    intros [= ->]. apply list_find_Some in Hfind as (Hi & -> & Hmin).
    split; [done|]. intros j Hlt Hj. by apply (Hmin j p).
  - intros [Hi Hmin].
    assert (list_find (λ q, q = p) l = Some (i, p)) as ->; [|done].
    apply list_find_Some. split_and!; [done..|].
    intros j q Hj Hlt ->. by apply (Hmin j).
Qed.

Lemma index_ptr_None (p : loc) (l : list loc) :
  index_ptr p l = None ↔ p ∉ l.
Proof.
  unfold index_ptr. rewrite fmap_None, list_find_None, Forall_forall.
  split; [intros Hall Hin; by apply (Hall p)|intros Hnot q Hq ->; done].
Qed.

Section DrawingLinkage.

Variable assign_id : list Relationship → string.
Variable DrawingType : string.

(** The drawing is not tracked: nothing is registered and the reference
    written is the empty identifier. *)
Lemma SetDrawing_drawing_untracked (s : Sheet) (d : DrawingH) (σ : Store)
    (wbk dwb : Workbook) (wks : Worksheet) :
  workbooks σ !! Sheet_w s = Some wbk →
  (∀ i, index_ptr (Sheet_ws s) (xws wbk) = Some i → is_Some (xwsRels wbk !! i)) →
  workbooks σ !! Drawing_wb d = Some dwb →
  Drawing_x d ∉ drawings dwb →
  worksheets σ !! Sheet_ws s = Some wks →
  SetDrawing assign_id DrawingType s d σ = Ok (tt, with_drawing s wks "" σ).
Proof.
  intros Hw Hrels Hdw Hd%index_ptr_None Hws.
  unfold SetDrawing. unfold_bind. rewrite Hw, Hdw, Hd.
  destruct (index_ptr (Sheet_ws s) (xws wbk)) as [i|].
  - destruct (Hrels i eq_refl) as [rel ->]. by rewrite Hws.
  - by rewrite Hws.
Qed.

(** The sheet's worksheet is not tracked but the drawing is: the
    relationship is registered through the zero handle. *)
Lemma SetDrawing_sheet_untracked (s : Sheet) (d : DrawingH) (σ : Store)
    (wbk dwb : Workbook) :
  workbooks σ !! Sheet_w s = Some wbk →
  Sheet_ws s ∉ xws wbk →
  workbooks σ !! Drawing_wb d = Some dwb →
  Drawing_x d ∈ drawings dwb →
  SetDrawing assign_id DrawingType s d σ = Panic.
Proof.
  intros Hw Hs%index_ptr_None Hdw Hd.
  unfold SetDrawing. unfold_bind. rewrite Hw, Hs, Hdw.
  destruct (index_ptr (Drawing_x d) (drawings dwb)) as [j|] eqn:Hj; [done|].
  by apply index_ptr_None in Hj.
Qed.

(** C2: let the sheet's worksheet tree be found at position [i] of its
    workbook's worksheet trees, relationship set [i] be a set of the store
    holding [rels], and the drawing's definition be found at position [j] of
    the drawings of the drawing's workbook.  Then [SetDrawing] returns
    normally; relationship set [i] is [rels] followed by exactly one new
    entry, registered for a spreadsheet part with the drawing type tag and
    part index [j + 1]; every other relationship set is as before; and the
    drawing reference of the worksheet tree holds the identifier of the new
    entry.  Rows, metadata, workbooks and other worksheet trees are
    untouched. *)
Theorem SetDrawing_links (s : Sheet) (d : DrawingH) (σ : Store) (wbk dwb : Workbook)
    (wks : Worksheet) (i j : nat) (l : loc) (rels : list Relationship) :
  workbooks σ !! Sheet_w s = Some wbk →
  xws wbk !! i = Some (Sheet_ws s) →
  (∀ i', i' < i → xws wbk !! i' ≠ Some (Sheet_ws s)) →
  xwsRels wbk !! i = Some (mkRelationships (Some l)) →
  relsets σ !! l = Some rels →
  workbooks σ !! Drawing_wb d = Some dwb →
  drawings dwb !! j = Some (Drawing_x d) →
  (∀ j', j' < j → drawings dwb !! j' ≠ Some (Drawing_x d)) →
  worksheets σ !! Sheet_ws s = Some wks →
  let rel := drawing_relationship assign_id DrawingType rels j in
  ∃ σ',
    SetDrawing assign_id DrawingType s d σ = Ok (tt, σ') ∧
    relsets σ' !! l = Some (rels ++ [rel]) ∧
    Rel_Type rel = DrawingType ∧ Rel_Index rel = (Z.of_nat j + 1)%Z ∧
    (∀ l', l' ≠ l → relsets σ' !! l' = relsets σ !! l') ∧
    worksheets σ' !! Sheet_ws s
      = Some (mkWorksheet (SheetData_Row wks) (Some (mkCT_Drawing (Rel_ID rel)))) ∧
    (∀ q, q ≠ Sheet_ws s → worksheets σ' !! q = worksheets σ !! q) ∧
    workbooks σ' = workbooks σ ∧ sheets σ' = sheets σ ∧ rows σ' = rows σ.
Proof.
  intros Hw Hi Himin Hrel Hl Hdw Hj Hjmin Hws rel.
  assert (index_ptr (Sheet_ws s) (xws wbk) = Some i) as Hip by by apply index_ptr_Some.
  assert (index_ptr (Drawing_x d) (drawings dwb) = Some j) as Hjp by by apply index_ptr_Some.
  exists (with_drawing s wks (Rel_ID rel) (set_relsets (insert l (rels ++ [rel])) σ)).
  split_and!.
  - unfold SetDrawing, AddAutoRelationship. unfold_bind.
    rewrite Hw, Hip, Hrel, Hdw, Hjp. simpl. rewrite Hl. simpl. by rewrite Hws.
  - simpl. by rewrite lookup_insert_eq.
  - done.
  - done.
  - intros l' Hne. simpl. by rewrite lookup_insert_ne.
  - simpl. by rewrite lookup_insert_eq.
  - intros q Hne. simpl. by rewrite lookup_insert_ne.
  - done.
  - done.
  - done.
Qed.

End DrawingLinkage.

(** ** Concrete runs *)

Lemma no_cell_reuse (σ : Store) (rs : list loc) :
  no_cell_reuse_b σ rs = true → ¬ ∃ a, cell_ref_reused σ rs a.
Proof.
  intros Hall (a & r & row & Hin & Hrow & Htw).
  unfold no_cell_reuse_b in Hall. rewrite forallb_forall in Hall.
  specialize (Hall r (proj1 (list_elem_of_In _ _) Hin)).
  rewrite Hrow in Hall. simpl in Hall. apply bool_decide_eq_true in Hall.
  apply (proj1 (occurs_twice_NoDup _) Hall). by exists a.
Qed.

Lemma no_row_reuse (σ : Store) (rs : list loc) :
  NoDup (explicit_numbers σ rs) → ¬ ∃ n, row_number_reused σ rs n.
Proof. intros Hnd. by apply occurs_twice_NoDup. Qed.

(** The examples of the specification. *)

Example Validate_rows_3_3 :
  Validate accept accept sheet1 rows_3_3 = Ok (Some (Errorf_reused_row "Sheet1" 3), []) ∧
  Error (Errorf_reused_row "Sheet1" 3) = "'Sheet1' reused row 3"%string.
Proof. split; vm_compute; reflexivity. Qed.

Example Validate_row_A1_A1 :
  Validate accept accept sheet1 row_A1_A1 = Ok (Some (Errorf_reused_cell "Sheet1" "A1"), []) ∧
  Error (Errorf_reused_cell "Sheet1" "A1") = "'Sheet1' reused cell A1"%string.
Proof. split; vm_compute; reflexivity. Qed.

Example Validate_rows_1_2_5 :
  Validate accept accept sheet1 rows_1_2_5
  = Ok (None, [Call_CT_Sheet_Validate; Call_Worksheet_Validate]).
Proof. vm_compute; reflexivity. Qed.

Example Name_SetName :
  ∃ σ', SetName sheet1 "Sheet2" rows_1_2_5 = Ok (tt, σ') ∧
        Name sheet1 σ' = Ok "Sheet2"%string.
Proof. eexists. split; vm_compute; reflexivity. Qed.

(** C1, as stated, fails: in [rows_1A1A1_1] the explicit row number 1 is
    carried by two rows, yet [Validate] does not return a duplicate-row error:
    it stops on the address A1 repeated in the first row. *)
Lemma Validate_duplicate_row_not_reported :
  (∃ n, row_number_reused rows_1A1A1_1 [1%positive; 2%positive] n) ∧
  Validate accept accept sheet1 rows_1A1A1_1
    = Ok (Some (Errorf_reused_cell "Sheet1" "A1"), []) ∧
  ¬ ∃ name n log, Validate accept accept sheet1 rows_1A1A1_1
                  = Ok (Some (Errorf_reused_row name n), log).
Proof.
  split_and!.
  - exists 1%Z, 0, 1. split_and!; [lia|by_eval..].
  - by_eval.
  - intros (name & n & log & Hout). vm_compute in Hout. discriminate.
Qed.

Lemma SetDrawing_links_witness :
  workbooks rows_1_2_5 !! Sheet_w sheet1 = Some book ∧
  xws book !! 0 = Some (Sheet_ws sheet1) ∧
  xwsRels book !! 0 = Some (mkRelationships (Some 1%positive)) ∧
  relsets rows_1_2_5 !! 1%positive = Some [] ∧
  drawings book !! 0 = Some (Drawing_x drawing1) ∧
  ∃ σ', SetDrawing rId drawing_tag sheet1 drawing1 rows_1_2_5 = Ok (tt, σ') ∧
        relsets σ' !! 1%positive
          = Some [mkRelationship "rId1" DocTypeSpreadsheet 1 drawing_tag] ∧
        Drawing <$> worksheets σ' !! Sheet_ws sheet1 = Some (Some (mkCT_Drawing "rId1")).
Proof.
  assert (workbooks rows_1_2_5 !! Sheet_w sheet1 = Some book) as Hw by by_eval.
  assert (relsets rows_1_2_5 !! 1%positive = Some []) as Hl by by_eval.
  assert (worksheets rows_1_2_5 !! Sheet_ws sheet1
          = Some (mkWorksheet
                    [1%positive; 2%positive; 3%positive; 4%positive; 5%positive] None))
    as Hws by by_eval.
  split_and!; [done..|].
  destruct (SetDrawing_links rId drawing_tag sheet1 drawing1 rows_1_2_5 book book _ 0 0
              1%positive [] Hw eq_refl ltac:(intros; lia) eq_refl Hl Hw eq_refl
              ltac:(intros; lia) Hws)
    as (σ' & Hrun & Hrels & _ & _ & _ & Hdr & _).
  exists σ'. split_and!; [done|done|]. by rewrite Hdr.
Defined.

(** C3, at a sheet whose worksheet tree its workbook does not track and a
    drawing found at position 0: the sheet lookup misses, the drawing lookup
    hits, and [SetDrawing] registers the relationship through the handle that
    was never assigned; it does not return. *)
Theorem SetDrawing_untracked_sheet (assign_id : list Relationship → string)
    (DrawingType : string) :
  let σ := store_of book_without_sheet [] [] in
  index_ptr (Sheet_ws sheet1) (xws book_without_sheet) = None ∧
  index_ptr (Drawing_x drawing1) (drawings book_without_sheet) = Some 0 ∧
  is_Some (worksheets σ !! Sheet_ws sheet1) ∧
  SetDrawing assign_id DrawingType sheet1 drawing1 σ = Panic.
Proof.
  split_and!; [by_eval|by_eval|by eexists|].
  by apply (SetDrawing_sheet_untracked _ _ _ _ _ book_without_sheet book_without_sheet);
    [by_eval|intros ?%elem_of_nil|by_eval|left].
Qed.

(** The other half of C3 holds: with the drawing untracked, nothing is
    registered and the reference is the empty identifier. *)
Example SetDrawing_untracked_drawing :
  ∃ σ', SetDrawing rId drawing_tag sheet1 drawing1 (store_of book_without_drawing [] [])
        = Ok (tt, σ') ∧
        relsets σ' = relsets (store_of book_without_drawing [] []) ∧
        Drawing <$> worksheets σ' !! Sheet_ws sheet1 = Some (Some (mkCT_Drawing "")).
Proof. eexists. split_and!; by_eval. Qed.

Lemma EnsureRow_idempotent_witness :
  worksheets rows_1_2_5 !! Sheet_ws sheet1
    = Some (mkWorksheet [1%positive; 2%positive; 3%positive; 4%positive; 5%positive] None) ∧
  rows_allocated rows_1_2_5 [1%positive; 2%positive; 3%positive; 4%positive; 5%positive] ∧
  ∃ r σ1, EnsureRow sheet1 7 rows_1_2_5 = Ok (r, σ1) ∧ EnsureRow sheet1 7 σ1 = Ok (r, σ1).
Proof.
  assert (worksheets rows_1_2_5 !! Sheet_ws sheet1
          = Some (mkWorksheet
                    [1%positive; 2%positive; 3%positive; 4%positive; 5%positive] None))
    as Hws by by_eval.
  assert (rows_allocated rows_1_2_5
            [1%positive; 2%positive; 3%positive; 4%positive; 5%positive]) as Hall
    by allocated.
  split_and!; [done..|].
  destruct (EnsureRow_idempotent sheet1 7 rows_1_2_5 _ Hws Hall) as (r & σ1 & H1 & H2 & _).
  by exists r, σ1.
Defined.

(** C5, as stated, fails: with a row numbered 4294967295 present, [AddRow]
    appends a row numbered 0, which is not greater. *)
Lemma AddRow_wraps_around :
  ∃ r σ', AddRow sheet1 row_max = Ok (r, σ') ∧
          explicit_numbers row_max [1%positive] = [4294967295%Z] ∧
          number_of σ' (Row_x r) = Some 0%Z ∧
          ¬ (4294967295 < 0)%Z.
Proof. eexists _, _. split_and!; [by_eval|by_eval|by_eval|lia]. Qed.

Lemma AddRow_next_number_witness :
  worksheets rows_1_2_5 !! Sheet_ws sheet1
    = Some (mkWorksheet [1%positive; 2%positive; 3%positive; 4%positive; 5%positive] None) ∧
  rows_allocated rows_1_2_5 [1%positive; 2%positive; 3%positive; 4%positive; 5%positive] ∧
  ∃ r σ', AddRow sheet1 rows_1_2_5 = Ok (r, σ') ∧ number_of σ' (Row_x r) = Some 6%Z.
Proof.
  assert (worksheets rows_1_2_5 !! Sheet_ws sheet1
          = Some (mkWorksheet
                    [1%positive; 2%positive; 3%positive; 4%positive; 5%positive] None))
    as Hws by by_eval.
  assert (rows_allocated rows_1_2_5
            [1%positive; 2%positive; 3%positive; 4%positive; 5%positive]) as Hall
    by allocated.
  split_and!; [done..|].
  destruct (AddRow_next_number sheet1 rows_1_2_5 _ Hws Hall) as (r & σ' & Hrun & _ & _ & Hn & _).
  exists r, σ'. split; [done|]. rewrite Hn. by_eval.
Defined.

Lemma AddNumberedRow_appends_witness :
  worksheets rows_3_3 !! Sheet_ws sheet1 = Some (mkWorksheet [1%positive; 2%positive] None) ∧
  ∃ r σ', AddNumberedRow sheet1 3 rows_3_3 = Ok (mkRow 1 r, σ') ∧
          worksheets σ' !! Sheet_ws sheet1
            = Some (mkWorksheet [1%positive; 2%positive; r] None) ∧
          rows σ' !! r = Some (mkCT_Row (Some 3%Z) []) ∧
          rows σ' !! 1%positive = Some (mkCT_Row (Some 3%Z) []).
Proof.
  assert (worksheets rows_3_3 !! Sheet_ws sheet1
          = Some (mkWorksheet [1%positive; 2%positive] None)) as Hws by by_eval.
  split; [done|].
  destruct (AddNumberedRow_appends sheet1 3 rows_3_3 _ Hws)
    as (r & σ' & Hrun & _ & Hslice & Hnew & Hold & _).
  exists r, σ'. split_and!; [done..|]. apply Hold. by_eval.
Defined.

Lemma Rows_in_stored_order_witness :
  worksheets rows_3_3 !! Sheet_ws sheet1 = Some (mkWorksheet [1%positive; 2%positive] None) ∧
  rows_allocated rows_3_3 [1%positive; 2%positive] ∧
  ∃ σ' hs', add_numbered_rows sheet1 [5; 2; 8]%Z rows_3_3 = Ok σ' ∧
            Rows sheet1 σ' = Ok hs' ∧
            numbers_of_handles σ' hs' = [Some 3; Some 3; Some 5; Some 2; Some 8]%Z.
Proof.
  assert (worksheets rows_3_3 !! Sheet_ws sheet1
          = Some (mkWorksheet [1%positive; 2%positive] None)) as Hws by by_eval.
  assert (rows_allocated rows_3_3 [1%positive; 2%positive]) as Hall by allocated.
  split_and!; [done..|].
  destruct (Rows_in_stored_order sheet1 rows_3_3 _ Hws Hall)
    as (_ & σ' & hs & hs' & Hrows & Hadd & Hrows' & Hnums).
  exists σ', hs'. split_and!; [done..|]. rewrite Hnums.
  assert (hs = [mkRow 1 1; mkRow 1 2]) as ->; [|by_eval].
  assert (Rows sheet1 rows_3_3 = Ok [mkRow 1 1; mkRow 1 2]) as Hc by by_eval.
  congruence.
Defined.

(** C8: [ValidateWithPath] returns what the metadata validator returns for
    the path and calls nothing else, neither duplicate check nor worksheet
    validator: a sheet on which [Validate] reports a reused row, and a sheet
    on which [Validate] reports the failure of the worksheet validator, both
    pass it. *)
Theorem ValidateWithPath_metadata_only :
  (∀ (CT_Sheet_ValidateWithPath : Store → loc → string → option string)
     (s : Sheet) (path : string) (σ : Store),
     ValidateWithPath CT_Sheet_ValidateWithPath s path σ
     = Ok (Delegated <$> CT_Sheet_ValidateWithPath σ (Sheet_x s) path,
           [Call_CT_Sheet_ValidateWithPath path])) ∧
  (Validate accept accept sheet1 rows_3_3 = Ok (Some (Errorf_reused_row "Sheet1" 3), []) ∧
   ValidateWithPath accept_path sheet1 "xl/workbook.xml" rows_3_3
   = Ok (None, [Call_CT_Sheet_ValidateWithPath "xl/workbook.xml"])) ∧
  (Validate accept (reject "bad worksheet") sheet1 rows_1_2_5
   = Ok (Some (Delegated "bad worksheet"), [Call_CT_Sheet_Validate; Call_Worksheet_Validate]) ∧
   ValidateWithPath accept_path sheet1 "xl/workbook.xml" rows_1_2_5
   = Ok (None, [Call_CT_Sheet_ValidateWithPath "xl/workbook.xml"])).
Proof. split_and!; [done|by_eval..]. Qed.

Lemma EnsureRow_skips_unnumbered_witness :
  worksheets rows_unnumbered !! Sheet_ws sheet1
    = Some (mkWorksheet [1%positive; 2%positive] None) ∧
  rows_allocated rows_unnumbered [1%positive; 2%positive] ∧
  ∃ r σ1, EnsureRow sheet1 0 rows_unnumbered = Ok (r, σ1) ∧
          number_of σ1 (Row_x r) = Some 0%Z ∧
          worksheets σ1 !! Sheet_ws sheet1
            = Some (mkWorksheet [1%positive; 2%positive; Row_x r] None).
Proof.
  assert (worksheets rows_unnumbered !! Sheet_ws sheet1
          = Some (mkWorksheet [1%positive; 2%positive] None)) as Hws by by_eval.
  assert (rows_allocated rows_unnumbered [1%positive; 2%positive]) as Hall by allocated.
  split_and!; [done..|].
  destruct (EnsureRow_skips_unnumbered sheet1 0 rows_unnumbered _ Hws Hall)
    as (r & σ1 & Hrun & Hn & _ & Hnew).
  exists r, σ1. split_and!; [done..|].
  apply Hnew. intros q Hq.
  apply elem_of_cons in Hq as [->|Hq]; [by_eval|].
  apply elem_of_cons in Hq as [->|Hq]; [by_eval|]. by apply elem_of_nil in Hq.
Defined.

Lemma Validate_metadata_first_witness :
  worksheets rows_1_2_5 !! Sheet_ws sheet1
    = Some (mkWorksheet [1%positive; 2%positive; 3%positive; 4%positive; 5%positive] None) ∧
  rows_allocated rows_1_2_5 [1%positive; 2%positive; 3%positive; 4%positive; 5%positive] ∧
  (¬ ∃ n, row_number_reused rows_1_2_5
            [1%positive; 2%positive; 3%positive; 4%positive; 5%positive] n) ∧
  (¬ ∃ a, cell_ref_reused rows_1_2_5
            [1%positive; 2%positive; 3%positive; 4%positive; 5%positive] a) ∧
  Validate (reject "bad sheet") (reject "bad worksheet") sheet1 rows_1_2_5
  = Ok (Some (Delegated "bad sheet"), [Call_CT_Sheet_Validate]).
Proof.
  assert (worksheets rows_1_2_5 !! Sheet_ws sheet1
          = Some (mkWorksheet
                    [1%positive; 2%positive; 3%positive; 4%positive; 5%positive] None))
    as Hws by by_eval.
  assert (rows_allocated rows_1_2_5
            [1%positive; 2%positive; 3%positive; 4%positive; 5%positive]) as Hall
    by allocated.
  assert (¬ ∃ n, row_number_reused rows_1_2_5
                   [1%positive; 2%positive; 3%positive; 4%positive; 5%positive] n) as Hrow.
  { apply no_row_reuse. by_decision. }
  assert (¬ ∃ a, cell_ref_reused rows_1_2_5
                   [1%positive; 2%positive; 3%positive; 4%positive; 5%positive] a) as Hcell.
  { apply no_cell_reuse. by_eval. }
  split_and!; [done..|].
  destruct (Validate_metadata_first (reject "bad sheet") (reject "bad worksheet")
              sheet1 rows_1_2_5 _ Hws Hall Hrow Hcell) as (Hfail & _).
  by apply (Hfail "bad sheet"%string).
Defined.

(** * Further properties *)

(** ** [Name] and [SetName] *)

(** X1: [SetName] followed by [Name] gives the name back, through the handle
    used and through every handle on the same metadata record; handles on
    other metadata records read what they read before, and rows, worksheet
    trees, workbooks and relationship sets are untouched. *)
Theorem SetName_then_Name (s : Sheet) (name : string) (σ : Store) (meta : CT_Sheet) :
  sheets σ !! Sheet_x s = Some meta →
  ∃ σ', SetName s name σ = Ok (tt, σ') ∧
        (∀ s', Sheet_x s' = Sheet_x s → Name s' σ' = Ok name) ∧
        (∀ s', Sheet_x s' ≠ Sheet_x s → Name s' σ' = Name s' σ) ∧
        rows σ' = rows σ ∧ worksheets σ' = worksheets σ ∧
        workbooks σ' = workbooks σ ∧ relsets σ' = relsets σ.
Proof.
  intros Hx. eexists. split_and!.
  - unfold SetName. unfold_bind. by rewrite Hx.
  - intros s' Heq. unfold Name. unfold_bind. simpl.
    by rewrite Heq, lookup_insert_eq.
  - intros s' Hne. unfold Name. unfold_bind. simpl.
    by rewrite lookup_insert_ne.
  - done.
  - done.
  - done.
  - done.
Qed.

Lemma SetName_then_Name_witness :
  sheets rows_1_2_5 !! Sheet_x sheet1 = Some (mkCT_Sheet "Sheet1") ∧
  ∃ σ', SetName sheet1 "Totals" rows_1_2_5 = Ok (tt, σ') ∧
        Name (mkSheet 7 1 9) σ' = Ok "Totals"%string.
Proof.
  assert (sheets rows_1_2_5 !! Sheet_x sheet1 = Some (mkCT_Sheet "Sheet1")) as Hx by by_eval.
  split; [done|].
  destruct (SetName_then_Name sheet1 "Totals" rows_1_2_5 _ Hx) as (σ' & Hrun & Hsame & _).
  exists σ'. split; [done|]. by apply Hsame.
Defined.

(** ** Row numbers across the mutators *)

Lemma explicit_numbers_app (σ : Store) (l1 l2 : list loc) :
  explicit_numbers σ (l1 ++ l2) = explicit_numbers σ l1 ++ explicit_numbers σ l2.
Proof. unfold explicit_numbers. apply omap_app. Qed.

Lemma elem_of_explicit_numbers (σ : Store) (rs : list loc) (n : Z) :
  n ∈ explicit_numbers σ rs ↔ ∃ q, q ∈ rs ∧ number_of σ q = Some n.
Proof. unfold explicit_numbers. apply list_elem_of_omap. Qed.

Lemma explicit_numbers_agree (σ σ' : Store) (rs : list loc) :
  (∀ q, q ∈ rs → rows σ' !! q = rows σ !! q) →
  explicit_numbers σ' rs = explicit_numbers σ rs.
Proof.
  induction rs as [|p rs IH]; [done|]. intros Hag.
  assert (explicit_numbers σ' rs = explicit_numbers σ rs) as Htl.
  { apply IH. intros q Hq. apply Hag. by right. }
  assert (number_of σ' p = number_of σ p) as Hhd.
  { unfold number_of. by rewrite (Hag p) by left. }
  unfold explicit_numbers in *. csimpl. by rewrite Hhd, Htl.
Qed.

Lemma with_new_row_numbers (s : Sheet) (n : Z) (wks : Worksheet) (σ : Store) (rs : list loc) :
  rows_allocated σ rs →
  explicit_numbers (with_new_row s n wks σ) (rs ++ [fresh (dom (rows σ))])
  = explicit_numbers σ rs ++ [n].
Proof.
  intros Hall. rewrite explicit_numbers_app. f_equal.
  - apply explicit_numbers_agree. intros q Hq. apply with_new_row_old.
    intros ->. by eapply fresh_row_not_in.
  - unfold explicit_numbers. simpl. by rewrite with_new_row_number.
Qed.

Lemma with_new_row_rows_allocated (s : Sheet) (n : Z) (wks : Worksheet) (σ : Store)
    (rs : list loc) :
  rows_allocated σ rs →
  rows_allocated (with_new_row s n wks σ) (rs ++ [fresh (dom (rows σ))]).
Proof.
  intros Hall. apply Forall_app. split.
  - eapply Forall_impl; [exact Hall|]. intros p [row Hp].
    exists row. by apply with_new_row_allocated.
  - constructor; [|constructor]. unfold with_new_row. simpl.
    rewrite lookup_insert_eq. by eexists.
Qed.

(** The appended row has no cell, so it brings no reused address. *)
Lemma with_new_row_cells (s : Sheet) (n : Z) (wks : Worksheet) (σ : Store) (rs : list loc)
    (a : string) :
  rows_allocated σ rs →
  cell_ref_reused (with_new_row s n wks σ) (rs ++ [fresh (dom (rows σ))]) a →
  cell_ref_reused σ rs a.
Proof.
  intros Hall (q & row & Hin & Hrow & Htw).
  apply elem_of_app in Hin as [Hin | ->%list_elem_of_singleton].
  - exists q, row. split_and!; [done| |done].
    rewrite <- Hrow. symmetry. apply with_new_row_old.
    intros ->. by eapply fresh_row_not_in.
  - unfold with_new_row in Hrow. simpl in Hrow.
    rewrite lookup_insert_eq in Hrow. injection Hrow as <-.
    destruct Htw as (i & j & _ & Hi & _). by destruct i.
Qed.

Lemma occurs_twice_snoc {A : Type} (l : list A) (n m : A) :
  NoDup l → occurs_twice m (l ++ [n]) ↔ m = n ∧ n ∈ l.
Proof.
  intros Hnd. split.
  - intros (i & j & Hlt & Hi & Hj).
    apply lookup_app_Some in Hj as [Hj | [Hge Hj]].
    + assert (i < length l) as Hil by (apply lookup_lt_Some in Hj; lia).
      rewrite lookup_app_l in Hi by done.
      pose proof (NoDup_lookup _ _ _ _ Hnd Hi Hj). lia.
    + apply list_lookup_singleton_Some in Hj as [Hj0 ->].
      apply lookup_app_Some in Hi as [Hi | [Hge' _]]; [|lia].
      split; [done|]. by eapply list_elem_of_lookup_2.
  - intros [-> Hin]. apply list_elem_of_lookup_1 in Hin as [i Hi].
    exists i, (length l). split_and!.
    + apply lookup_lt_Some in Hi. lia.
    + by apply lookup_app_l_Some.
    + by rewrite lookup_app_r, Nat.sub_diag.
Qed.

Lemma with_new_row_duplicate_free (s : Sheet) (n : Z) (wks : Worksheet) (σ : Store)
    (rs : list loc) :
  rows_allocated σ rs → duplicate_free σ rs → n ∉ explicit_numbers σ rs →
  duplicate_free (with_new_row s n wks σ) (rs ++ [fresh (dom (rows σ))]).
Proof.
  intros Hall [Hrow Hcell] Hn. split.
  - intros [m Hm]. unfold row_number_reused in Hm.
    rewrite (with_new_row_numbers _ _ _ _ _ Hall) in Hm.
    apply occurs_twice_snoc in Hm as [_ Hin]; [done|].
    by apply occurs_twice_NoDup.
  - intros [a Ha]. apply Hcell. exists a. by eapply with_new_row_cells.
Qed.

Lemma sheet_rows_with_new_row (s : Sheet) (n : Z) (wks : Worksheet) (σ : Store) :
  sheet_rows (with_new_row s n wks σ) s = SheetData_Row wks ++ [fresh (dom (rows σ))].
Proof. unfold sheet_rows, with_new_row. simpl. by rewrite lookup_insert_eq. Qed.

Lemma sheet_rows_lookup (s : Sheet) (σ : Store) (wks : Worksheet) :
  worksheets σ !! Sheet_ws s = Some wks → sheet_rows σ s = SheetData_Row wks.
Proof. intros Hws. unfold sheet_rows. by rewrite Hws. Qed.

(** X2: [EnsureRow] keeps a sheet free of reused identifiers, and its row
    pointers valid: called on such a sheet, with whatever number, it returns
    normally and leaves such a sheet. *)
Theorem EnsureRow_keeps_duplicate_free (s : Sheet) (n : Z) (σ : Store) (wks : Worksheet) :
  worksheets σ !! Sheet_ws s = Some wks →
  rows_allocated σ (SheetData_Row wks) →
  duplicate_free σ (SheetData_Row wks) →
  ∃ (r : Row) (σ1 : Store),
    EnsureRow s n σ = Ok (r, σ1) ∧
    rows_allocated σ1 (sheet_rows σ1 s) ∧
    duplicate_free σ1 (sheet_rows σ1 s).
Proof.
  intros Hws Hall Hfree.
  destruct (find_row_total σ n _ Hall) as [[r|] Hfind].
  - exists (mkRow (Sheet_w s) r), σ.
    rewrite (sheet_rows_lookup _ _ _ Hws).
    split_and!; [by eapply EnsureRow_found|done..].
  - exists (mkRow (Sheet_w s) (fresh (dom (rows σ)))), (with_new_row s n wks σ).
    rewrite (EnsureRow_missing _ _ _ _ Hws Hfind), sheet_rows_with_new_row.
    split_and!.
    + by apply AddNumberedRow_Ok.
    + by apply with_new_row_rows_allocated.
    + apply with_new_row_duplicate_free; [done..|].
      intros (q & Hq & Hnum)%elem_of_explicit_numbers.
      by apply (proj2 (find_row_None _ _ _ Hfind) q).
Qed.

Lemma EnsureRow_keeps_duplicate_free_witness :
  worksheets rows_1_2_5 !! Sheet_ws sheet1
    = Some (mkWorksheet [1%positive; 2%positive; 3%positive; 4%positive; 5%positive] None) ∧
  ∃ r σ1, EnsureRow sheet1 9 rows_1_2_5 = Ok (r, σ1) ∧
          duplicate_free σ1 (sheet_rows σ1 sheet1).
Proof.
  assert (worksheets rows_1_2_5 !! Sheet_ws sheet1
          = Some (mkWorksheet
                    [1%positive; 2%positive; 3%positive; 4%positive; 5%positive] None))
    as Hws by by_eval.
  assert (rows_allocated rows_1_2_5
            [1%positive; 2%positive; 3%positive; 4%positive; 5%positive]) as Hall
    by allocated.
  assert (duplicate_free rows_1_2_5
            [1%positive; 2%positive; 3%positive; 4%positive; 5%positive]) as Hfree.
  { split; [apply no_row_reuse; by_decision | apply no_cell_reuse; by_eval]. }
  split; [done|].
  destruct (EnsureRow_keeps_duplicate_free sheet1 9 rows_1_2_5 _ Hws Hall Hfree)
    as (r & σ1 & Hrun & _ & Hfree1).
  by exists r, σ1.
Defined.

(** X3: [AddRow] keeps a sheet free of reused identifiers as long as no row
    carries the largest 32-bit number: the number it assigns is then new. *)
Theorem AddRow_keeps_duplicate_free (s : Sheet) (σ : Store) (wks : Worksheet) :
  worksheets σ !! Sheet_ws s = Some wks →
  rows_allocated σ (SheetData_Row wks) →
  duplicate_free σ (SheetData_Row wks) →
  (∀ n, n ∈ explicit_numbers σ (SheetData_Row wks) → (n < 2 ^ 32 - 1)%Z) →
  ∃ (r : Row) (σ' : Store),
    AddRow s σ = Ok (r, σ') ∧
    rows_allocated σ' (sheet_rows σ' s) ∧
    duplicate_free σ' (sheet_rows σ' s).
Proof.
  intros Hws Hall Hfree Hlt.
  set (nums := explicit_numbers σ (SheetData_Row wks)) in *.
  exists (mkRow (Sheet_w s) (fresh (dom (rows σ)))),
    (with_new_row s (wrap32 (max_number nums + 1)) wks σ).
  rewrite (AddRow_unfold _ _ _ Hws Hall), sheet_rows_with_new_row. fold nums.
  split_and!.
  - by apply AddNumberedRow_Ok.
  - by apply with_new_row_rows_allocated.
  - apply with_new_row_duplicate_free; [done..|]. fold nums.
    intros Hin. pose proof (max_number_ge _ _ Hin) as Hge.
    pose proof (max_number_nonneg nums) as H0.
    assert (max_number nums < 2 ^ 32 - 1)%Z as Hmax.
    { clear -Hlt. induction nums as [|m l IH]; simpl; [lia|].
      assert (m < 2 ^ 32 - 1)%Z by (apply Hlt; left).
      assert (max_number l < 2 ^ 32 - 1)%Z.
      { apply IH. intros k Hk. apply Hlt. by right. }
      unfold max_number in *. lia. }
    unfold wrap32 in Hge. rewrite Z.mod_small in Hge; lia.
Qed.

Lemma AddRow_keeps_duplicate_free_witness :
  worksheets rows_1_2_5 !! Sheet_ws sheet1
    = Some (mkWorksheet [1%positive; 2%positive; 3%positive; 4%positive; 5%positive] None) ∧
  ∃ r σ', AddRow sheet1 rows_1_2_5 = Ok (r, σ') ∧
          duplicate_free σ' (sheet_rows σ' sheet1).
Proof.
  assert (worksheets rows_1_2_5 !! Sheet_ws sheet1
          = Some (mkWorksheet
                    [1%positive; 2%positive; 3%positive; 4%positive; 5%positive] None))
    as Hws by by_eval.
  assert (rows_allocated rows_1_2_5
            [1%positive; 2%positive; 3%positive; 4%positive; 5%positive]) as Hall
    by allocated.
  assert (duplicate_free rows_1_2_5
            [1%positive; 2%positive; 3%positive; 4%positive; 5%positive]) as Hfree.
  { split; [apply no_row_reuse; by_decision | apply no_cell_reuse; by_eval]. }
  assert (∀ n, n ∈ explicit_numbers rows_1_2_5
                     [1%positive; 2%positive; 3%positive; 4%positive; 5%positive] →
               (n < 2 ^ 32 - 1)%Z) as Hlt.
  { assert (explicit_numbers rows_1_2_5
              [1%positive; 2%positive; 3%positive; 4%positive; 5%positive]
            = [1; 2; 5]%Z) as -> by by_eval.
    intros n Hn. repeat (apply elem_of_cons in Hn as [->|Hn]; [lia|]).
    by apply elem_of_nil in Hn. }
  split; [done|].
  destruct (AddRow_keeps_duplicate_free sheet1 rows_1_2_5 _ Hws Hall Hfree Hlt)
    as (r & σ' & Hrun & _ & Hfree').
  by exists r, σ'.
Defined.

(** ** Which reuse [Validate] reports *)

(** The cell loop stops on the first address that is already in the set or
    repeats an earlier address of the row. *)
Lemma scan_cells_Some_iff (cs : list CT_Cell) (a : string) :
  ∀ used, scan_cells used cs = Some a ↔
          ∃ l1 l2, omap Cell_RAttr cs = l1 ++ a :: l2 ∧ NoDup l1 ∧
                   (∀ x, x ∈ l1 → x ∉ used) ∧ (a ∈ used ∨ a ∈ l1).
Proof.
  induction cs as [|c cs IH]; intros used; cbn [scan_cells].
  - split; [discriminate|]. intros (l1 & l2 & Heq & _). by destruct l1.
  - csimpl. destruct (Cell_RAttr c) as [b|]; [|apply IH].
    case_bool_decide as Hin.
    + split.
      * intros [= <-]. exists [], (omap Cell_RAttr cs).
        split_and!; [done|constructor|by intros x ?%elem_of_nil|by left].
      * intros (l1 & l2 & Heq & _ & Hnew & _). destruct l1 as [|x l1].
        -- by injection Heq as ->.
        -- injection Heq as <- _. exfalso. apply (Hnew b); [left|done].
    + rewrite IH. split.
      * intros (l1 & l2 & Heq & Hnd & Hnew & Ha).
        exists (b :: l1), l2. rewrite Heq. split_and!; [done| | |].
        -- apply NoDup_cons. split; [|done]. intros Hb. apply (Hnew b Hb). set_solver.
        -- intros x [->|Hx]%elem_of_cons; [done|]. specialize (Hnew x Hx). set_solver.
        -- destruct Ha as [Ha|Ha]; [|right; by right].
           apply elem_of_union in Ha as [->%elem_of_singleton|Ha]; [right; left|by left].
      * intros (l1 & l2 & Heq & Hnd & Hnew & Ha). destruct l1 as [|x l1].
        -- injection Heq as -> _. destruct Ha as [Ha|Ha]; [done|by apply elem_of_nil in Ha].
        -- injection Heq as <- Heq. apply NoDup_cons in Hnd as [Hb Hnd].
           exists l1, l2. split_and!; [done..| |].
           ++ intros y Hy [->%elem_of_singleton|Hu]%elem_of_union; [done|].
              apply (Hnew y); [by right|done].
           ++ destruct Ha as [Ha|Ha]; [left; set_solver|].
              apply elem_of_cons in Ha as [->|Ha]; [left; set_solver|by right].
Qed.

Lemma scan_cells_first_repeat (row : CT_Row) (a : string) :
  scan_cells ∅ (Row_C row) = Some a ↔ first_repeat a (cell_refs row).
Proof.
  rewrite scan_cells_Some_iff. unfold first_repeat, cell_refs. split.
  - intros (l1 & l2 & Heq & Hnd & _ & [Ha|Ha]); [set_solver|]. by exists l1, l2.
  - intros (l1 & l2 & Heq & Hnd & Ha). exists l1, l2.
    split_and!; [done..|set_solver|by right].
Qed.

(** A prefix the row scan runs through only adds its numbers to the set. *)
Lemma scan_rows_app_None (σ : Store) (l1 l2 : list loc) :
  ∀ used, scan_rows σ used l1 = Ok None →
          scan_rows σ used (l1 ++ l2)
          = scan_rows σ (list_to_set (explicit_numbers σ l1) ∪ used) l2.
Proof.
  induction l1 as [|p l1 IH]; intros used.
  - intros _. simpl. f_equal. set_solver.
  - cbn [scan_rows app]. unfold_bind.
    destruct (rows σ !! p) as [row|] eqn:Hrow; [|discriminate].
    rewrite (explicit_numbers_cons _ _ _ _ Hrow).
    destruct (Row_RAttr row) as [m|].
    + case_bool_decide as Hin; [discriminate|].
      destruct (scan_cells ∅ (Row_C row)); [discriminate|].
      intros Hscan. rewrite (IH _ Hscan). f_equal. set_solver.
    + destruct (scan_cells ∅ (Row_C row)); [discriminate|]. apply IH.
Qed.

(** Once the row scan has stopped, what follows is not looked at. *)
Lemma scan_rows_app_stop (σ : Store) (l1 l2 : list loc) :
  ∀ used, scan_rows σ used l1 ≠ Ok None →
          scan_rows σ used (l1 ++ l2) = scan_rows σ used l1.
Proof.
  induction l1 as [|p l1 IH]; intros used; [done|].
  cbn [scan_rows app]. unfold_bind.
  destruct (rows σ !! p) as [row|]; [|done].
  destruct (Row_RAttr row) as [m|].
  - case_bool_decide; [done|].
    destruct (scan_cells ∅ (Row_C row)); [done|]. apply IH.
  - destruct (scan_cells ∅ (Row_C row)); [done|]. apply IH.
Qed.

(** The scan stops with [e] exactly when it runs through a prefix of the
    slice and stops with [e] on the row that follows. *)
Lemma scan_rows_stop_split (σ : Store) (rs : list loc) (e : reuse) :
  ∀ used, scan_rows σ used rs = Ok (Some e) ↔
          ∃ l1 r l2, rs = l1 ++ r :: l2 ∧ scan_rows σ used l1 = Ok None ∧
                     scan_rows σ (list_to_set (explicit_numbers σ l1) ∪ used) [r]
                     = Ok (Some e).
Proof.
  intros used. split.
  - revert used. induction rs as [|p rs IH]; intros used; [discriminate|].
    change (p :: rs) with ([p] ++ rs).
    destruct (scan_rows σ used [p]) as [[e'|]|] eqn:Hp.
    + rewrite scan_rows_app_stop, Hp by (by rewrite Hp). intros [= ->].
      exists [], p, rs. split_and!; [done..|].
      rewrite <- Hp. f_equal. set_solver.
    + rewrite (scan_rows_app_None _ _ _ _ Hp).
      intros (l1 & r & l2 & -> & Hpre & Hstop)%IH.
      exists (p :: l1), r, l2. split_and!; [done| |].
      * change (p :: l1) with ([p] ++ l1). by rewrite (scan_rows_app_None _ _ _ _ Hp).
      * rewrite <- Hstop. f_equal. change (p :: l1) with ([p] ++ l1).
        rewrite explicit_numbers_app, list_to_set_app_L. set_solver.
    + rewrite scan_rows_app_stop, Hp by (by rewrite Hp). discriminate.
  - intros (l1 & r & l2 & -> & Hpre & Hstop).
    rewrite (scan_rows_app_None _ _ _ _ Hpre).
    change (r :: l2) with ([r] ++ l2).
    rewrite scan_rows_app_stop, Hstop; [done|]. by rewrite Hstop.
Qed.

Lemma scan_rows_single_ReusedRow (σ : Store) (r : loc) (n : Z) (used : gset Z) :
  scan_rows σ used [r] = Ok (Some (ReusedRow n)) ↔ number_of σ r = Some n ∧ n ∈ used.
Proof.
  cbn [scan_rows]. unfold_bind. unfold number_of.
  destruct (rows σ !! r) as [row|]; simpl; [|split; [discriminate|by intros [? _]]].
  destruct (Row_RAttr row) as [m|].
  - case_bool_decide as Hin.
    + split; [by intros [= <-]|by intros [[= <-] _]].
    + split.
      * destruct (scan_cells ∅ (Row_C row)); discriminate.
      * intros [[= <-] Hn]. done.
  - split; [|by intros [? _]].
    destruct (scan_cells ∅ (Row_C row)); discriminate.
Qed.

Lemma scan_rows_single_ReusedCell (σ : Store) (r : loc) (a : string) (used : gset Z) :
  scan_rows σ used [r] = Ok (Some (ReusedCell a)) ↔
  ∃ row, rows σ !! r = Some row ∧ (∀ m, Row_RAttr row = Some m → m ∉ used) ∧
         scan_cells ∅ (Row_C row) = Some a.
Proof.
  cbn [scan_rows]. unfold_bind.
  destruct (rows σ !! r) as [row|]; [|split; [discriminate|by intros (? & ? & _)]].
  split.
  - intros Hscan. exists row. split; [done|].
    destruct (Row_RAttr row) as [m|].
    + case_bool_decide as Hin; [discriminate|].
      destruct (scan_cells ∅ (Row_C row)); [|discriminate].
      injection Hscan as ->. split; [by intros ? [= <-]|done].
    + destruct (scan_cells ∅ (Row_C row)); [|discriminate].
      injection Hscan as ->. done.
  - intros (row' & [= <-] & Hnew & Hsc). rewrite Hsc.
    destruct (Row_RAttr row) as [m|]; [|done].
    rewrite bool_decide_eq_false_2; [done|]. by apply Hnew.
Qed.

Lemma with_new_row_agree (s : Sheet) (n : Z) (wks : Worksheet) (σ : Store) (rs : list loc) :
  rows_allocated σ rs →
  ∀ q, q ∈ rs → rows (with_new_row s n wks σ) !! q = rows σ !! q.
Proof.
  intros Hall q Hq. apply with_new_row_old. intros ->. by eapply fresh_row_not_in.
Qed.

Lemma duplicate_free_agree (σ σ' : Store) (rs : list loc) :
  (∀ q, q ∈ rs → rows σ' !! q = rows σ !! q) →
  duplicate_free σ rs → duplicate_free σ' rs.
Proof.
  intros Hag [Hrow Hcell]. split.
  - intros [m Hm]. apply Hrow. exists m. unfold row_number_reused in *.
    by rewrite <- (explicit_numbers_agree _ _ _ Hag).
  - intros [a (q & row & Hq & Hrow' & Htw)]. apply Hcell. exists a, q, row.
    split_and!; [done| |done]. by rewrite <- (Hag q Hq).
Qed.

Section ReportedReuse.

Variable CT_Sheet_Validate : Store → loc → option string.
Variable Worksheet_Validate : Store → loc → option string.

Lemma Validate_reuse (s : Sheet) (σ : Store) (wks : Worksheet) (meta : CT_Sheet)
    (e : error) (log : list call) :
  worksheets σ !! Sheet_ws s = Some wks →
  sheets σ !! Sheet_x s = Some meta →
  (∀ msg, e ≠ Delegated msg) →
  Validate CT_Sheet_Validate Worksheet_Validate s σ = Ok (Some e, log) ↔
  log = [] ∧
  ((∃ n, e = Errorf_reused_row (NameAttr meta) n ∧
         scan_rows σ ∅ (SheetData_Row wks) = Ok (Some (ReusedRow n))) ∨
   (∃ a, e = Errorf_reused_cell (NameAttr meta) a ∧
         scan_rows σ ∅ (SheetData_Row wks) = Ok (Some (ReusedCell a)))).
Proof.
  intros Hws Hx He. rewrite (Validate_unfold _ _ s σ wks meta Hws Hx).
  destruct (scan_rows σ ∅ (SheetData_Row wks)) as [[[n|a]|]|].
  - split.
    + intros [= <- <-]. split; [done|]. left. by exists n.
    + intros [-> [(m & -> & [= ->]) | (b & _ & [=])]]. done.
  - split.
    + intros [= <- <-]. split; [done|]. right. by exists a.
    + intros [-> [(m & _ & [=]) | (b & -> & [= ->])]]. done.
  - split.
    + intros [= Hdel]. apply delegated_not_reused in Hdel as [msg ->]. by destruct (He msg).
    + intros [_ [(m & _ & [=]) | (b & _ & [=])]].
  - split; [discriminate|]. intros [_ [(m & _ & [=]) | (b & _ & [=])]].
Qed.

(** X4: [Validate] returns the duplicate-row error for [n] exactly when the row
    slice splits into rows free of any reuse, followed by a row numbered
    [n] although one of those rows carries [n] already: the error names the
    first row number met a second time, provided no address was found reused
    before; it names the sheet and is returned before any delegated
    validator is called. *)
Theorem Validate_reused_row_iff (s : Sheet) (σ : Store) (wks : Worksheet) (meta : CT_Sheet)
    (name : string) (n : Z) (log : list call) :
  worksheets σ !! Sheet_ws s = Some wks →
  rows_allocated σ (SheetData_Row wks) →
  sheets σ !! Sheet_x s = Some meta →
  Validate CT_Sheet_Validate Worksheet_Validate s σ
    = Ok (Some (Errorf_reused_row name n), log) ↔
  name = NameAttr meta ∧ log = [] ∧
  ∃ l1 r l2, SheetData_Row wks = l1 ++ r :: l2 ∧ duplicate_free σ l1 ∧
             number_of σ r = Some n ∧ n ∈ explicit_numbers σ l1.
Proof.
  intros Hws Hall Hx. rewrite (Validate_reuse _ _ _ _ _ _ Hws Hx) by done. split.
  - intros [-> [(m & [= -> ->] & Hscan) | (b & [=] & _)]].
    apply scan_rows_stop_split in Hscan as (l1 & r & l2 & Heq & Hpre & Hstop).
    apply scan_rows_single_ReusedRow in Hstop as [Hnum Hin].
    split_and!; [done..|]. exists l1, r, l2. split_and!; [done| |done|set_solver].
    apply scan_rows_clean; [|done]. rewrite Heq in Hall.
    by apply Forall_app in Hall as [Hall _].
  - intros (-> & -> & l1 & r & l2 & Heq & Hfree & Hnum & Hin).
    split; [done|]. left. exists n. split; [done|].
    rewrite Heq. apply scan_rows_stop_split. exists l1, r, l2. split_and!; [done| |].
    + apply scan_rows_clean; [|done]. rewrite Heq in Hall.
      by apply Forall_app in Hall as [Hall _].
    + apply scan_rows_single_ReusedRow. split; [done|set_solver].
Qed.

(** X5: [Validate] returns the duplicate-cell error for [a] exactly when the row
    slice splits into rows free of any reuse, followed by a row whose number,
    if it has one, is carried by none of them, and among whose addresses [a]
    is the first to repeat an earlier one. *)
Theorem Validate_reused_cell_iff (s : Sheet) (σ : Store) (wks : Worksheet)
    (meta : CT_Sheet) (name a : string) (log : list call) :
  worksheets σ !! Sheet_ws s = Some wks →
  rows_allocated σ (SheetData_Row wks) →
  sheets σ !! Sheet_x s = Some meta →
  Validate CT_Sheet_Validate Worksheet_Validate s σ
    = Ok (Some (Errorf_reused_cell name a), log) ↔
  name = NameAttr meta ∧ log = [] ∧
  ∃ l1 r row l2, SheetData_Row wks = l1 ++ r :: l2 ∧ duplicate_free σ l1 ∧
                 rows σ !! r = Some row ∧
                 (∀ m, Row_RAttr row = Some m → m ∉ explicit_numbers σ l1) ∧
                 first_repeat a (cell_refs row).
Proof.
  intros Hws Hall Hx. rewrite (Validate_reuse _ _ _ _ _ _ Hws Hx) by done. split.
  - intros [-> [(m & [=] & _) | (b & [= -> ->] & Hscan)]].
    apply scan_rows_stop_split in Hscan as (l1 & r & l2 & Heq & Hpre & Hstop).
    apply scan_rows_single_ReusedCell in Hstop as (row & Hrow & Hnew & Hsc).
    split_and!; [done..|]. exists l1, r, row, l2. split_and!; [done| |done| |].
    + apply scan_rows_clean; [|done]. rewrite Heq in Hall.
      by apply Forall_app in Hall as [Hall _].
    + intros m Hm Hin. apply (Hnew m Hm). set_solver.
    + by apply scan_cells_first_repeat.
  - intros (-> & -> & l1 & r & row & l2 & Heq & Hfree & Hrow & Hnew & Hrep).
    split; [done|]. right. exists a. split; [done|].
    rewrite Heq. apply scan_rows_stop_split. exists l1, r, l2. split_and!; [done| |].
    + apply scan_rows_clean; [|done]. rewrite Heq in Hall.
      by apply Forall_app in Hall as [Hall _].
    + apply scan_rows_single_ReusedCell. exists row. split_and!; [done| |].
      * intros m Hm. specialize (Hnew m Hm). set_solver.
      * by apply scan_cells_first_repeat.
Qed.

(** X6: On a sheet free of reuse, [AddNumberedRow n] makes [Validate] fail, with
    the duplicate-row error for [n], exactly when a row carries [n] already;
    with a new number the sheet stays free of reuse and [Validate] hands the
    decision to the delegated validators. *)
Theorem AddNumberedRow_then_Validate (s : Sheet) (n : Z) (σ : Store) (wks : Worksheet)
    (meta : CT_Sheet) :
  worksheets σ !! Sheet_ws s = Some wks →
  rows_allocated σ (SheetData_Row wks) →
  sheets σ !! Sheet_x s = Some meta →
  duplicate_free σ (SheetData_Row wks) →
  ∃ (r : Row) (σ' : Store),
    AddNumberedRow s n σ = Ok (r, σ') ∧
    (n ∈ explicit_numbers σ (SheetData_Row wks) →
       Validate CT_Sheet_Validate Worksheet_Validate s σ'
       = Ok (Some (Errorf_reused_row (NameAttr meta) n), [])) ∧
    (n ∉ explicit_numbers σ (SheetData_Row wks) →
       duplicate_free σ' (sheet_rows σ' s) ∧
       Validate CT_Sheet_Validate Worksheet_Validate s σ'
       = Ok (delegated CT_Sheet_Validate Worksheet_Validate s σ')).
Proof.
  intros Hws Hall Hx Hfree.
  set (r := fresh (dom (rows σ))). set (σ' := with_new_row s n wks σ).
  exists (mkRow (Sheet_w s) r), σ'.
  assert (worksheets σ' !! Sheet_ws s
          = Some (mkWorksheet (SheetData_Row wks ++ [r]) (Drawing wks))) as Hws'.
  { unfold σ', with_new_row. simpl. by rewrite lookup_insert_eq. }
  assert (sheets σ' !! Sheet_x s = Some meta) as Hx' by done.
  assert (rows_allocated σ' (SheetData_Row wks ++ [r])) as Hall'
    by by apply with_new_row_rows_allocated.
  split_and!.
  - by apply AddNumberedRow_Ok.
  - intros Hin.
    pose proof (with_new_row_agree s n wks σ _ Hall) as Hag. fold σ' in Hag.
    apply (Validate_reuse s σ' _ meta _ _ Hws' Hx'); [done|].
    split; [done|]. left. exists n. split; [done|]. simpl.
    apply scan_rows_stop_split. exists (SheetData_Row wks), r, [].
    split_and!; [done| |].
    + apply scan_rows_clean.
      * eapply Forall_impl; [exact Hall|]. intros q [row Hq].
        exists row. by apply with_new_row_allocated.
      * by apply (duplicate_free_agree σ).
    + apply scan_rows_single_ReusedRow. split; [apply with_new_row_number|].
      rewrite (explicit_numbers_agree _ _ _ Hag). set_solver.
  - intros Hnew.
    assert (duplicate_free σ' (SheetData_Row wks ++ [r])) as Hfree'
      by by apply with_new_row_duplicate_free.
    split; [unfold σ'; by rewrite sheet_rows_with_new_row|].
    rewrite (Validate_unfold _ _ s σ' _ meta Hws' Hx'). simpl.
    by rewrite (proj2 (scan_rows_clean σ' _ Hall') Hfree').
Qed.

End ReportedReuse.

Section DuplicateErrors.

Variable CT_Sheet_Validate : Store → loc → option string.
Variable Worksheet_Validate : Store → loc → option string.

(** C1 (amended): on a sheet whose pointers are valid, [Validate] returns a
    duplicate-row error only when some explicit row number is carried by two
    rows, and a duplicate-cell error only when some explicit address is
    carried by two cells of one row; each such error names the sheet and the
    reused identifier and is returned before any delegated validator is
    called.  It returns one of the two errors exactly when one of the two
    kinds of reuse is present; when no row reuses an address the
    duplicate-row error is returned exactly when a row number is reused, and
    when no row number is reused the duplicate-cell error is returned exactly
    when a row reuses an address.  Rows and cells without identifier never
    count, an address shared by two rows does not count, and without any
    reuse the result is the one of the delegated validators, success when
    both succeed.  With both kinds of reuse present the error is the first
    met in scan order, rows in stored order and, in a row, the number before
    the cells: the duplicate-row error for [n] is returned exactly when the
    slice is a prefix free of any reuse followed by a row numbered [n] with
    [n] carried in the prefix, and the duplicate-cell error for [a] exactly
    when the slice is a prefix free of any reuse followed by a row whose
    number, if any, is not carried in the prefix and in which [a] is the
    first address to repeat an earlier one. *)
Theorem Validate_duplicates (s : Sheet) (σ : Store) (wks : Worksheet) (meta : CT_Sheet) :
  worksheets σ !! Sheet_ws s = Some wks →
  rows_allocated σ (SheetData_Row wks) →
  sheets σ !! Sheet_x s = Some meta →
  let rs := SheetData_Row wks in
  let name := NameAttr meta in
  let out := Validate CT_Sheet_Validate Worksheet_Validate s σ in
  (∀ name' n log, out = Ok (Some (Errorf_reused_row name' n), log) →
                  name' = name ∧ log = [] ∧ row_number_reused σ rs n) ∧
  (∀ name' a log, out = Ok (Some (Errorf_reused_cell name' a), log) →
                  name' = name ∧ log = [] ∧ cell_ref_reused σ rs a) ∧
  (((∃ n, row_number_reused σ rs n) ∨ (∃ a, cell_ref_reused σ rs a)) ↔
   ((∃ n, out = Ok (Some (Errorf_reused_row name n), [])) ∨
    (∃ a, out = Ok (Some (Errorf_reused_cell name a), [])))) ∧
  ((¬ ∃ a, cell_ref_reused σ rs a) →
     ((∃ n, row_number_reused σ rs n) ↔
      (∃ n, out = Ok (Some (Errorf_reused_row name n), [])))) ∧
  ((¬ ∃ n, row_number_reused σ rs n) →
     ((∃ a, cell_ref_reused σ rs a) ↔
      (∃ a, out = Ok (Some (Errorf_reused_cell name a), [])))) ∧
  ((¬ ∃ n, row_number_reused σ rs n) → (¬ ∃ a, cell_ref_reused σ rs a) →
     out = Ok (delegated CT_Sheet_Validate Worksheet_Validate s σ) ∧
     (CT_Sheet_Validate σ (Sheet_x s) = None →
      Worksheet_Validate σ (Sheet_ws s) = None →
      out = Ok (None, [Call_CT_Sheet_Validate; Call_Worksheet_Validate]))) ∧
  (∀ n, out = Ok (Some (Errorf_reused_row name n), []) ↔
        ∃ l1 r l2, rs = l1 ++ r :: l2 ∧ duplicate_free σ l1 ∧
                   number_of σ r = Some n ∧ n ∈ explicit_numbers σ l1) ∧
  (∀ a, out = Ok (Some (Errorf_reused_cell name a), []) ↔
        ∃ l1 r row l2, rs = l1 ++ r :: l2 ∧ duplicate_free σ l1 ∧
                       rows σ !! r = Some row ∧
                       (∀ m, Row_RAttr row = Some m → m ∉ explicit_numbers σ l1) ∧
                       first_repeat a (cell_refs row)).
Proof.
  intros Hws Hall Hx rs name out.
  destruct (duplicate_checks_outcome CT_Sheet_Validate Worksheet_Validate s σ wks meta
              Hws Hall Hx) as (H1 & H2 & H3 & H4 & H5 & H6).
  assert (∀ l1 r l2, rs = l1 ++ r :: l2 →
                     (scan_rows σ ∅ l1 = Ok None ↔ duplicate_free σ l1)) as Hprefix.
  { intros l1 r l2 Heq. apply scan_rows_clean. unfold rs in Heq. rewrite Heq in Hall.
    by apply Forall_app in Hall as [Hall _]. }
  split_and!; [done..| |].
  - intros n. unfold out.
    rewrite (Validate_reuse _ _ _ _ _ _ _ _ Hws Hx) by done. fold rs name. split.
    + intros [_ [(m & [= ->] & Hscan) | (b & [=] & _)]].
      apply scan_rows_stop_split in Hscan as (l1 & r & l2 & Heq & Hpre & Hstop).
      apply scan_rows_single_ReusedRow in Hstop as [Hnum Hin].
      exists l1, r, l2. split_and!; [done| |done|set_solver].
      by apply (Hprefix l1 r l2).
    + intros (l1 & r & l2 & Heq & Hfree & Hnum & Hin).
      split; [done|]. left. exists n. split; [done|].
      rewrite Heq. apply scan_rows_stop_split. exists l1, r, l2.
      split_and!; [done|by apply (Hprefix l1 r l2)|].
      apply scan_rows_single_ReusedRow. split; [done|set_solver].
  - intros a. unfold out.
    rewrite (Validate_reuse _ _ _ _ _ _ _ _ Hws Hx) by done. fold rs name. split.
    + intros [_ [(m & [=] & _) | (b & [= ->] & Hscan)]].
      apply scan_rows_stop_split in Hscan as (l1 & r & l2 & Heq & Hpre & Hstop).
      apply scan_rows_single_ReusedCell in Hstop as (row & Hrow & Hnew & Hsc).
      exists l1, r, row, l2. split_and!; [done| |done| |].
      * by apply (Hprefix l1 r l2).
      * intros m Hm Hin. apply (Hnew m Hm). set_solver.
      * by apply scan_cells_first_repeat.
    + intros (l1 & r & row & l2 & Heq & Hfree & Hrow & Hnew & Hrep).
      split; [done|]. right. exists a. split; [done|].
      rewrite Heq. apply scan_rows_stop_split. exists l1, r, l2.
      split_and!; [done|by apply (Hprefix l1 r l2)|].
      apply scan_rows_single_ReusedCell. exists row. split_and!; [done| |].
      * intros m Hm. specialize (Hnew m Hm). set_solver.
      * by apply scan_cells_first_repeat.
Qed.

End DuplicateErrors.

Lemma Validate_duplicates_witness :
  worksheets rows_3_3 !! Sheet_ws sheet1 = Some (mkWorksheet [1%positive; 2%positive] None) ∧
  rows_allocated rows_3_3 [1%positive; 2%positive] ∧
  sheets rows_3_3 !! Sheet_x sheet1 = Some (mkCT_Sheet "Sheet1") ∧
  row_number_reused rows_3_3 [1%positive; 2%positive] 3.
Proof.
  assert (worksheets rows_3_3 !! Sheet_ws sheet1
          = Some (mkWorksheet [1%positive; 2%positive] None)) as Hws by by_eval.
  assert (rows_allocated rows_3_3 [1%positive; 2%positive]) as Hall by allocated.
  assert (sheets rows_3_3 !! Sheet_x sheet1 = Some (mkCT_Sheet "Sheet1")) as Hx by by_eval.
  split_and!; [done..|].
  destruct (Validate_duplicates accept accept sheet1 rows_3_3 _ _ Hws Hall Hx)
    as (Hrow & _).
  apply (Hrow "Sheet1"%string 3%Z []). by_eval.
Defined.

Lemma Validate_reused_row_iff_witness :
  worksheets rows_3_3 !! Sheet_ws sheet1 = Some (mkWorksheet [1%positive; 2%positive] None) ∧
  rows_allocated rows_3_3 [1%positive; 2%positive] ∧
  sheets rows_3_3 !! Sheet_x sheet1 = Some (mkCT_Sheet "Sheet1") ∧
  ∃ l1 r l2, [1%positive; 2%positive] = l1 ++ r :: l2 ∧ duplicate_free rows_3_3 l1 ∧
             number_of rows_3_3 r = Some 3%Z ∧ 3%Z ∈ explicit_numbers rows_3_3 l1.
Proof.
  assert (worksheets rows_3_3 !! Sheet_ws sheet1
          = Some (mkWorksheet [1%positive; 2%positive] None)) as Hws by by_eval.
  assert (rows_allocated rows_3_3 [1%positive; 2%positive]) as Hall by allocated.
  assert (sheets rows_3_3 !! Sheet_x sheet1 = Some (mkCT_Sheet "Sheet1")) as Hx by by_eval.
  split_and!; [done..|].
  apply (Validate_reused_row_iff accept accept sheet1 rows_3_3 _ _ "Sheet1" 3 []
           Hws Hall Hx).
  by_eval.
Defined.

Lemma Validate_reused_cell_iff_witness :
  worksheets row_A1_A1 !! Sheet_ws sheet1 = Some (mkWorksheet [1%positive] None) ∧
  rows_allocated row_A1_A1 [1%positive] ∧
  sheets row_A1_A1 !! Sheet_x sheet1 = Some (mkCT_Sheet "Sheet1") ∧
  ∃ l1 r row l2, [1%positive] = l1 ++ r :: l2 ∧ rows row_A1_A1 !! r = Some row ∧
                 first_repeat "A1"%string (cell_refs row).
Proof.
  assert (worksheets row_A1_A1 !! Sheet_ws sheet1
          = Some (mkWorksheet [1%positive] None)) as Hws by by_eval.
  assert (rows_allocated row_A1_A1 [1%positive]) as Hall by allocated.
  assert (sheets row_A1_A1 !! Sheet_x sheet1 = Some (mkCT_Sheet "Sheet1")) as Hx by by_eval.
  split_and!; [done..|].
  destruct (proj1 (Validate_reused_cell_iff accept accept sheet1 row_A1_A1 _ _
                     "Sheet1" "A1" [] Hws Hall Hx))
    as (_ & _ & l1 & r & row & l2 & Heq & _ & Hrow & _ & Hrep); [by_eval|].
  by exists l1, r, row, l2.
Defined.

Lemma AddNumberedRow_then_Validate_witness :
  worksheets rows_1_2_5 !! Sheet_ws sheet1
    = Some (mkWorksheet [1%positive; 2%positive; 3%positive; 4%positive; 5%positive] None) ∧
  ∃ r σ', AddNumberedRow sheet1 2 rows_1_2_5 = Ok (r, σ') ∧
          Validate accept accept sheet1 σ' = Ok (Some (Errorf_reused_row "Sheet1" 2), []).
Proof.
  assert (worksheets rows_1_2_5 !! Sheet_ws sheet1
          = Some (mkWorksheet
                    [1%positive; 2%positive; 3%positive; 4%positive; 5%positive] None))
    as Hws by by_eval.
  assert (rows_allocated rows_1_2_5
            [1%positive; 2%positive; 3%positive; 4%positive; 5%positive]) as Hall
    by allocated.
  assert (sheets rows_1_2_5 !! Sheet_x sheet1 = Some (mkCT_Sheet "Sheet1")) as Hx by by_eval.
  assert (duplicate_free rows_1_2_5
            [1%positive; 2%positive; 3%positive; 4%positive; 5%positive]) as Hfree.
  { split; [apply no_row_reuse; by_decision | apply no_cell_reuse; by_eval]. }
  split; [done|].
  destruct (AddNumberedRow_then_Validate accept accept sheet1 2 rows_1_2_5 _ _
              Hws Hall Hx Hfree) as (r & σ' & Hrun & Hold & _).
  exists r, σ'. split; [done|]. apply Hold. cbn [SheetData_Row].
  assert (explicit_numbers rows_1_2_5
            [1%positive; 2%positive; 3%positive; 4%positive; 5%positive]
          = [1; 2; 5]%Z) as -> by by_eval.
  right. left.
Defined.

(** ** Successive [AddRow] *)

Lemma max_number_snoc (l : list Z) (x : Z) :
  max_number (l ++ [x]) = Z.max x (max_number l).
Proof.
  unfold max_number. rewrite foldr_app. simpl. apply foldr_max_start.
Qed.

Lemma add_rows_spec (s : Sheet) (k : nat) :
  ∀ (σ : Store) (wks : Worksheet),
    worksheets σ !! Sheet_ws s = Some wks →
    rows_allocated σ (SheetData_Row wks) →
    (max_number (explicit_numbers σ (SheetData_Row wks)) + Z.of_nat k < 2 ^ 32)%Z →
    ∃ (hs : list Row) (σ' : Store),
      add_rows s k σ = Ok (hs, σ') ∧
      worksheets σ' !! Sheet_ws s
        = Some (mkWorksheet (SheetData_Row wks ++ map Row_x hs) (Drawing wks)) ∧
      rows_allocated σ' (SheetData_Row wks ++ map Row_x hs) ∧
      numbers_of_handles σ' hs
        = map (λ i, Some (max_number (explicit_numbers σ (SheetData_Row wks))
                          + 1 + Z.of_nat i)%Z) (seq 0 k) ∧
      (∀ p row, rows σ !! p = Some row → rows σ' !! p = Some row).
Proof.
  induction k as [|k IH]; intros σ wks Hws Hall Hbound.
  - exists [], σ. simpl. rewrite app_nil_r. split_and!; [done| |done..].
    rewrite Hws. by destruct wks.
  - set (m := max_number (explicit_numbers σ (SheetData_Row wks))) in *.
    pose proof (max_number_nonneg (explicit_numbers σ (SheetData_Row wks))) as Hm0.
    fold m in Hm0.
    assert (wrap32 (m + 1) = (m + 1)%Z) as Hwrap.
    { unfold wrap32. apply Z.mod_small. lia. }
    set (r := fresh (dom (rows σ))). set (σ1 := with_new_row s (m + 1) wks σ).
    assert (AddRow s σ = Ok (mkRow (Sheet_w s) r, σ1)) as Hadd.
    { rewrite (AddRow_unfold _ _ _ Hws Hall). fold m. rewrite Hwrap.
      by apply AddNumberedRow_Ok. }
    assert (worksheets σ1 !! Sheet_ws s
            = Some (mkWorksheet (SheetData_Row wks ++ [r]) (Drawing wks))) as Hws1.
    { unfold σ1, with_new_row. simpl. by rewrite lookup_insert_eq. }
    assert (rows_allocated σ1 (SheetData_Row wks ++ [r])) as Hall1
      by by apply with_new_row_rows_allocated.
    assert (max_number (explicit_numbers σ1 (SheetData_Row wks ++ [r])) = (m + 1)%Z) as Hm1.
    { unfold σ1, r. rewrite (with_new_row_numbers _ _ _ _ _ Hall), max_number_snoc.
      fold m. lia. }
    destruct (IH σ1 _ Hws1 Hall1) as (hs & σ' & Hrun & Hws' & Hall' & Hnums & Hold).
    { simpl. rewrite Hm1. lia. }
    simpl in Hws', Hall', Hnums. rewrite Hm1 in Hnums.
    rewrite <- app_assoc in Hws', Hall'.
    exists (mkRow (Sheet_w s) r :: hs), σ'. split_and!.
    + cbn [add_rows]. rewrite Hadd. unfold_bind. by rewrite Hrun.
    + done.
    + done.
    + cbn [seq map numbers_of_handles]. f_equal.
      * unfold number_of. simpl.
        erewrite Hold; [|unfold σ1, r, with_new_row; simpl; by rewrite lookup_insert_eq].
        simpl. f_equal. lia.
      * unfold numbers_of_handles in Hnums. rewrite Hnums.
        rewrite <- fmap_S_seq. rewrite <- list_fmap_compose.
        apply list_fmap_ext. intros _ i _. simpl. f_equal. lia.
    + intros p row Hp. apply Hold. by apply with_new_row_allocated.
Qed.

(** X7: [k] calls of [AddRow] in a row, on a sheet whose largest explicit number
    is [m] with [m + k] below [2^32], return normally and append [k] rows
    numbered [m + 1], [m + 2], ..., [m + k] in that order, behind the rows
    present, which are left as they are. *)
Theorem add_rows_consecutive (s : Sheet) (k : nat) (σ : Store) (wks : Worksheet) :
  worksheets σ !! Sheet_ws s = Some wks →
  rows_allocated σ (SheetData_Row wks) →
  (max_number (explicit_numbers σ (SheetData_Row wks)) + Z.of_nat k < 2 ^ 32)%Z →
  ∃ (hs : list Row) (σ' : Store),
    add_rows s k σ = Ok (hs, σ') ∧
    length hs = k ∧
    sheet_rows σ' s = SheetData_Row wks ++ map Row_x hs ∧
    numbers_of_handles σ' hs
      = map (λ i, Some (max_number (explicit_numbers σ (SheetData_Row wks))
                        + 1 + Z.of_nat i)%Z) (seq 0 k) ∧
    (∀ p row, rows σ !! p = Some row → rows σ' !! p = Some row).
Proof.
  intros Hws Hall Hbound.
  destruct (add_rows_spec s k σ wks Hws Hall Hbound)
    as (hs & σ' & Hrun & Hws' & _ & Hnums & Hold).
  exists hs, σ'. split_and!; [done| |by rewrite (sheet_rows_lookup _ _ _ Hws')|done..].
  apply (f_equal length) in Hnums. unfold numbers_of_handles in Hnums.
  by rewrite !length_map, length_seq in Hnums.
Qed.

Lemma add_rows_consecutive_witness :
  worksheets rows_1_2_5 !! Sheet_ws sheet1
    = Some (mkWorksheet [1%positive; 2%positive; 3%positive; 4%positive; 5%positive] None) ∧
  ∃ hs σ', add_rows sheet1 3 rows_1_2_5 = Ok (hs, σ') ∧
           numbers_of_handles σ' hs = [Some 6; Some 7; Some 8]%Z.
Proof.
  assert (worksheets rows_1_2_5 !! Sheet_ws sheet1
          = Some (mkWorksheet
                    [1%positive; 2%positive; 3%positive; 4%positive; 5%positive] None))
    as Hws by by_eval.
  assert (rows_allocated rows_1_2_5
            [1%positive; 2%positive; 3%positive; 4%positive; 5%positive]) as Hall
    by allocated.
  split; [done|].
  destruct (add_rows_consecutive sheet1 3 rows_1_2_5 _ Hws Hall)
    as (hs & σ' & Hrun & _ & _ & Hnums & _); [by_eval|].
  exists hs, σ'. split; [done|]. rewrite Hnums. by_eval.
Defined.

(** ** [Rows] after the mutators *)

(** X8: A row appended through one handle is seen through every handle on the
    same worksheet tree: [Rows] then returns what it returned before,
    followed by one handle on the new row. *)
Theorem AddNumberedRow_then_Rows (s s' : Sheet) (n : Z) (σ : Store) (wks : Worksheet) :
  Sheet_ws s' = Sheet_ws s →
  worksheets σ !! Sheet_ws s = Some wks →
  ∃ (r : Row) (σ' : Store) (hs : list Row),
    AddNumberedRow s n σ = Ok (r, σ') ∧
    Rows s' σ = Ok hs ∧
    Rows s' σ' = Ok (hs ++ [mkRow (Sheet_w s') (Row_x r)]) ∧
    number_of σ' (Row_x r) = Some n.
Proof.
  intros Heq Hws.
  exists (mkRow (Sheet_w s) (fresh (dom (rows σ)))), (with_new_row s n wks σ),
    (map (mkRow (Sheet_w s')) (SheetData_Row wks)).
  split_and!.
  - by apply AddNumberedRow_Ok.
  - apply Rows_map. by rewrite Heq.
  - rewrite (Rows_map s' _ (mkWorksheet (SheetData_Row wks ++ [fresh (dom (rows σ))])
                                        (Drawing wks))).
    + simpl. by rewrite map_app.
    + rewrite Heq. unfold with_new_row. simpl. by rewrite lookup_insert_eq.
  - apply with_new_row_number.
Qed.

Lemma AddNumberedRow_then_Rows_witness :
  Sheet_ws (mkSheet 7 7 1) = Sheet_ws sheet1 ∧
  worksheets rows_3_3 !! Sheet_ws sheet1 = Some (mkWorksheet [1%positive; 2%positive] None) ∧
  ∃ r σ', AddNumberedRow sheet1 4 rows_3_3 = Ok (r, σ') ∧
          Rows (mkSheet 7 7 1) σ' = Ok [mkRow 7 1; mkRow 7 2; mkRow 7 (Row_x r)].
Proof.
  assert (worksheets rows_3_3 !! Sheet_ws sheet1
          = Some (mkWorksheet [1%positive; 2%positive] None)) as Hws by by_eval.
  split_and!; [done..|].
  destruct (AddNumberedRow_then_Rows sheet1 (mkSheet 7 7 1) 4 rows_3_3 _ eq_refl Hws)
    as (r & σ' & hs & Hrun & Hbefore & Hafter & _).
  exists r, σ'. split; [done|]. rewrite Hafter.
  assert (Rows (mkSheet 7 7 1) rows_3_3 = Ok [mkRow 7 1; mkRow 7 2]) as Hc by by_eval.
  rewrite Hc in Hbefore. by injection Hbefore as <-.
Defined.

(** X9: The handle [EnsureRow n] returns is on a row numbered [n] and is
    among those [Rows] returns afterwards.  When some row of the slice
    carries [n], the store is untouched, the handle was returned by [Rows]
    before and [Rows] returns the same handles; when no row carries [n],
    the handle is new and [Rows] returns the handles of before followed by
    it.  No row stored before is changed. *)
Theorem EnsureRow_then_Rows (s : Sheet) (n : Z) (σ : Store) (wks : Worksheet) :
  worksheets σ !! Sheet_ws s = Some wks →
  rows_allocated σ (SheetData_Row wks) →
  ∃ (r : Row) (σ1 : Store) (hs hs1 : list Row),
    EnsureRow s n σ = Ok (r, σ1) ∧
    Rows s σ = Ok hs ∧
    Rows s σ1 = Ok hs1 ∧
    r ∈ hs1 ∧
    ((n ∈ explicit_numbers σ (SheetData_Row wks) ∧ σ1 = σ ∧ (r ∈ hs) ∧ hs1 = hs) ∨
     ((n ∉ explicit_numbers σ (SheetData_Row wks)) ∧ (r ∉ hs) ∧ hs1 = hs ++ [r])) ∧
    (∀ p row, rows σ !! p = Some row → rows σ1 !! p = Some row) ∧
    number_of σ1 (Row_x r) = Some n.
Proof.
  intros Hws Hall.
  destruct (find_row_total σ n _ Hall) as [[r|] Hfind].
  - exists (mkRow (Sheet_w s) r), σ, (map (mkRow (Sheet_w s)) (SheetData_Row wks)),
      (map (mkRow (Sheet_w s)) (SheetData_Row wks)).
    destruct (find_row_Some _ _ _ _ Hfind) as (i & Hi & Hnum & _).
    apply list_elem_of_lookup_2 in Hi.
    assert (mkRow (Sheet_w s) r ∈ map (mkRow (Sheet_w s)) (SheetData_Row wks)) as Hin.
    { apply list_elem_of_fmap. by exists r. }
    split_and!;
      [by eapply EnsureRow_found|by apply Rows_map|by apply Rows_map|done| |done|done].
    left. split_and!; [|done..]. apply elem_of_explicit_numbers. by exists r.
  - set (r := fresh (dom (rows σ))).
    exists (mkRow (Sheet_w s) r), (with_new_row s n wks σ),
      (map (mkRow (Sheet_w s)) (SheetData_Row wks)),
      (map (mkRow (Sheet_w s)) (SheetData_Row wks) ++ [mkRow (Sheet_w s) r]).
    split_and!.
    + rewrite (EnsureRow_missing _ _ _ _ Hws Hfind). by apply AddNumberedRow_Ok.
    + by apply Rows_map.
    + rewrite (Rows_map s _ (mkWorksheet (SheetData_Row wks ++ [r]) (Drawing wks))).
      * simpl. by rewrite map_app.
      * unfold with_new_row. simpl. by rewrite lookup_insert_eq.
    + apply elem_of_app. right. left.
    + right. split_and!; [| |done].
      * intros (q & Hq & Hnum)%elem_of_explicit_numbers.
        by apply (proj2 (find_row_None _ _ _ Hfind) q).
      * intros (q & [= Hq] & Hin)%list_elem_of_fmap.
        apply (fresh_row_not_in σ _ Hall). fold r. by rewrite Hq.
    + intros p row. apply with_new_row_allocated.
    + apply with_new_row_number.
Qed.

Lemma EnsureRow_then_Rows_witness :
  worksheets rows_3_3 !! Sheet_ws sheet1 = Some (mkWorksheet [1%positive; 2%positive] None) ∧
  rows_allocated rows_3_3 [1%positive; 2%positive] ∧
  ∃ r σ1 hs hs1, EnsureRow sheet1 3 rows_3_3 = Ok (r, σ1) ∧
                 Rows sheet1 rows_3_3 = Ok hs ∧ Rows sheet1 σ1 = Ok hs1 ∧
                 r ∈ hs1 ∧ hs1 = hs.
Proof.
  assert (worksheets rows_3_3 !! Sheet_ws sheet1
          = Some (mkWorksheet [1%positive; 2%positive] None)) as Hws by by_eval.
  assert (rows_allocated rows_3_3 [1%positive; 2%positive]) as Hall by allocated.
  split_and!; [done..|].
  destruct (EnsureRow_then_Rows sheet1 3 rows_3_3 _ Hws Hall)
    as (r & σ1 & hs & hs1 & Hrun & Hbefore & Hrows & Hin & Hcase & _).
  exists r, σ1, hs, hs1. split_and!; [done..|].
  destruct Hcase as [(_ & _ & _ & Heq) | (Hnew & _)]; [done|].
  exfalso. apply Hnew. cbn [SheetData_Row].
  assert (explicit_numbers rows_3_3 [1%positive; 2%positive] = [3; 3]%Z) as -> by by_eval.
  left.
Defined.

(** ** More on [SetDrawing] *)

Section DrawingReference.

Variable assign_id : list Relationship → string.
Variable DrawingType : string.

(** The store [SetDrawing] leaves when both scans hit. *)
Lemma SetDrawing_Ok (s : Sheet) (d : DrawingH) (σ : Store) (wbk dwb : Workbook)
    (wks : Worksheet) (i j : nat) (l : loc) (rels : list Relationship) :
  workbooks σ !! Sheet_w s = Some wbk →
  index_ptr (Sheet_ws s) (xws wbk) = Some i →
  xwsRels wbk !! i = Some (mkRelationships (Some l)) →
  relsets σ !! l = Some rels →
  workbooks σ !! Drawing_wb d = Some dwb →
  index_ptr (Drawing_x d) (drawings dwb) = Some j →
  worksheets σ !! Sheet_ws s = Some wks →
  SetDrawing assign_id DrawingType s d σ
  = Ok (tt, with_drawing s wks (Rel_ID (drawing_relationship assign_id DrawingType rels j))
              (set_relsets
                 (insert l (rels ++ [drawing_relationship assign_id DrawingType rels j])) σ)).
Proof.
  intros Hw Hip Hrel Hl Hdw Hjp Hws.
  unfold SetDrawing, AddAutoRelationship. unfold_bind.
  rewrite Hw, Hip, Hrel, Hdw, Hjp. simpl. rewrite Hl. simpl. by rewrite Hws.
Qed.

(** X10: When the drawing's definition is not among the drawings of its workbook,
    [SetDrawing] returns normally without registering anything: every
    relationship set is as before, and the drawing reference of the
    worksheet tree is overwritten with the empty identifier; the row slice
    and the rest of the store are untouched. *)
Theorem SetDrawing_without_drawing (s : Sheet) (d : DrawingH) (σ : Store)
    (wbk dwb : Workbook) (wks : Worksheet) :
  workbooks σ !! Sheet_w s = Some wbk →
  (∀ i, index_ptr (Sheet_ws s) (xws wbk) = Some i → is_Some (xwsRels wbk !! i)) →
  workbooks σ !! Drawing_wb d = Some dwb →
  Drawing_x d ∉ drawings dwb →
  worksheets σ !! Sheet_ws s = Some wks →
  ∃ σ', SetDrawing assign_id DrawingType s d σ = Ok (tt, σ') ∧
        relsets σ' = relsets σ ∧
        worksheets σ' !! Sheet_ws s
          = Some (mkWorksheet (SheetData_Row wks) (Some (mkCT_Drawing ""))) ∧
        (∀ q, q ≠ Sheet_ws s → worksheets σ' !! q = worksheets σ !! q) ∧
        rows σ' = rows σ ∧ sheets σ' = sheets σ ∧ workbooks σ' = workbooks σ.
Proof.
  intros Hw Hrels Hdw Hd Hws. exists (with_drawing s wks "" σ). split_and!.
  - by eapply SetDrawing_drawing_untracked.
  - done.
  - unfold with_drawing. simpl. by rewrite lookup_insert_eq.
  - intros q Hq. unfold with_drawing. simpl. by rewrite lookup_insert_ne.
  - done.
  - done.
  - done.
Qed.

(** X11: A second [SetDrawing] overwrites the drawing reference and keeps the
    relationship of the first: the relationship set ends with the two
    entries, in call order, and the reference holds the identifier of the
    second. *)
Theorem SetDrawing_twice (s : Sheet) (d1 d2 : DrawingH) (σ : Store)
    (wbk dwb1 dwb2 : Workbook) (wks : Worksheet) (i j1 j2 : nat) (l : loc)
    (rels : list Relationship) :
  workbooks σ !! Sheet_w s = Some wbk →
  index_ptr (Sheet_ws s) (xws wbk) = Some i →
  xwsRels wbk !! i = Some (mkRelationships (Some l)) →
  relsets σ !! l = Some rels →
  workbooks σ !! Drawing_wb d1 = Some dwb1 →
  index_ptr (Drawing_x d1) (drawings dwb1) = Some j1 →
  workbooks σ !! Drawing_wb d2 = Some dwb2 →
  index_ptr (Drawing_x d2) (drawings dwb2) = Some j2 →
  worksheets σ !! Sheet_ws s = Some wks →
  let rel1 := drawing_relationship assign_id DrawingType rels j1 in
  let rel2 := drawing_relationship assign_id DrawingType (rels ++ [rel1]) j2 in
  ∃ σ1 σ2,
    SetDrawing assign_id DrawingType s d1 σ = Ok (tt, σ1) ∧
    SetDrawing assign_id DrawingType s d2 σ1 = Ok (tt, σ2) ∧
    relsets σ2 !! l = Some (rels ++ [rel1; rel2]) ∧
    worksheets σ2 !! Sheet_ws s
      = Some (mkWorksheet (SheetData_Row wks) (Some (mkCT_Drawing (Rel_ID rel2)))).
Proof.
  intros Hw Hip Hrel Hl Hdw1 Hj1 Hdw2 Hj2 Hws rel1 rel2.
  eexists _, _. split; [by eapply SetDrawing_Ok|]. split.
  - eapply (SetDrawing_Ok s d2 _ wbk dwb2 _ i j2 l (rels ++ [rel1])); try done.
    + simpl. by rewrite lookup_insert_eq.
    + unfold with_drawing. simpl. by rewrite lookup_insert_eq.
  - split.
    + simpl. rewrite lookup_insert_eq. by rewrite <- app_assoc.
    + unfold with_drawing. simpl. by rewrite lookup_insert_eq.
Qed.

(** X12: [SetDrawing] returns normally exactly when the three pointers it
    dereferences are valid, the relationship set aligned with the position
    of the sheet's worksheet tree exists whenever that tree is tracked,
    and, if the drawing is tracked, the tree is tracked too, with a
    relationship set to register in. *)
Theorem SetDrawing_returns_iff (s : Sheet) (d : DrawingH) (σ : Store) :
  (∃ σ', SetDrawing assign_id DrawingType s d σ = Ok (tt, σ')) ↔
  ∃ wbk dwb,
    workbooks σ !! Sheet_w s = Some wbk ∧
    workbooks σ !! Drawing_wb d = Some dwb ∧
    is_Some (worksheets σ !! Sheet_ws s) ∧
    (∀ i, index_ptr (Sheet_ws s) (xws wbk) = Some i → is_Some (xwsRels wbk !! i)) ∧
    (Drawing_x d ∈ drawings dwb →
       ∃ i l, index_ptr (Sheet_ws s) (xws wbk) = Some i ∧
              xwsRels wbk !! i = Some (mkRelationships (Some l)) ∧
              is_Some (relsets σ !! l)).
Proof.
  unfold SetDrawing, AddAutoRelationship. unfold_bind. split.
  - intros [σ' Hrun].
    destruct (workbooks σ !! Sheet_w s) as [wbk|]; [|discriminate].
    destruct (workbooks σ !! Drawing_wb d) as [dwb|] eqn:Hdw.
    2:{ destruct (index_ptr (Sheet_ws s) (xws wbk)); [|discriminate].
        destruct (xwsRels wbk !! n); discriminate. }
    exists wbk, dwb. split; [done|]. split; [done|].
    destruct (index_ptr (Sheet_ws s) (xws wbk)) as [i|] eqn:Hi.
    + destruct (xwsRels wbk !! i) as [[[l|]]|] eqn:Hrel; [| |discriminate].
      * destruct (index_ptr (Drawing_x d) (drawings dwb)) as [j|] eqn:Hj.
        -- simpl in Hrun. destruct (relsets σ !! l) as [rels|] eqn:Hl; [|discriminate].
           simpl in Hrun.
           destruct (worksheets σ !! Sheet_ws s) as [wks|]; [|discriminate].
           split_and!; [by eexists|intros ? [= <-]; by eexists|].
           intros _. exists i, l. split_and!; [done..|by eexists].
        -- destruct (worksheets σ !! Sheet_ws s) as [wks|]; [|discriminate].
           split_and!; [by eexists|intros ? [= <-]; by eexists|].
           intros Hin. by apply index_ptr_None in Hj.
      * destruct (index_ptr (Drawing_x d) (drawings dwb)) as [j|] eqn:Hj; [discriminate|].
        destruct (worksheets σ !! Sheet_ws s) as [wks|]; [|discriminate].
        split_and!; [by eexists|intros ? [= <-]; by eexists|].
        intros Hin. by apply index_ptr_None in Hj.
    + destruct (index_ptr (Drawing_x d) (drawings dwb)) as [j|] eqn:Hj; [discriminate|].
      destruct (worksheets σ !! Sheet_ws s) as [wks|]; [|discriminate].
      split_and!; [by eexists|done|].
      intros Hin. by apply index_ptr_None in Hj.
  - intros (wbk & dwb & -> & -> & [wks Hws] & Hal & Htr).
    destruct (index_ptr (Drawing_x d) (drawings dwb)) as [j|] eqn:Hj.
    + destruct Htr as (i & l & -> & -> & [rels Hl]).
      { apply index_ptr_Some in Hj as [Hj _]. by eapply list_elem_of_lookup_2. }
      simpl. rewrite Hl. simpl. rewrite Hws. by eexists.
    + destruct (index_ptr (Sheet_ws s) (xws wbk)) as [i|] eqn:Hi.
      * destruct (Hal i eq_refl) as [rel ->]. rewrite Hws. by eexists.
      * rewrite Hws. by eexists.
Qed.

End DrawingReference.

Lemma SetDrawing_without_drawing_witness :
  workbooks (store_of book_without_drawing [] []) !! Sheet_w sheet1
    = Some book_without_drawing ∧
  (Drawing_x drawing1 ∉ drawings book_without_drawing) ∧
  ∃ σ', SetDrawing rId drawing_tag sheet1 drawing1 (store_of book_without_drawing [] [])
        = Ok (tt, σ') ∧
        relsets σ' = relsets (store_of book_without_drawing [] []) ∧
        worksheets σ' !! Sheet_ws sheet1 = Some (mkWorksheet [] (Some (mkCT_Drawing ""))).
Proof.
  assert (workbooks (store_of book_without_drawing [] []) !! Sheet_w sheet1
          = Some book_without_drawing) as Hw by by_eval.
  assert (Drawing_x drawing1 ∉ drawings book_without_drawing) as Hd
    by (by intros ?%elem_of_nil).
  assert (worksheets (store_of book_without_drawing [] []) !! Sheet_ws sheet1
          = Some (mkWorksheet [] None)) as Hws by by_eval.
  assert (∀ i, index_ptr (Sheet_ws sheet1) (xws book_without_drawing) = Some i →
               is_Some (xwsRels book_without_drawing !! i)) as Hal.
  { intros i Hi. vm_compute in Hi. injection Hi as <-. by eexists. }
  split_and!; [done..|].
  destruct (SetDrawing_without_drawing rId drawing_tag sheet1 drawing1 _ _ _ _
              Hw Hal Hw Hd Hws)
    as (σ' & Hrun & Hrels & Hdr & _).
  by exists σ'.
Defined.

Lemma SetDrawing_twice_witness :
  workbooks rows_1_2_5 !! Sheet_w sheet1 = Some book ∧
  index_ptr (Sheet_ws sheet1) (xws book) = Some 0 ∧
  index_ptr (Drawing_x drawing1) (drawings book) = Some 0 ∧
  ∃ σ1 σ2,
    SetDrawing rId drawing_tag sheet1 drawing1 rows_1_2_5 = Ok (tt, σ1) ∧
    SetDrawing rId drawing_tag sheet1 drawing1 σ1 = Ok (tt, σ2) ∧
    relsets σ2 !! 1%positive
      = Some [mkRelationship "rId1" DocTypeSpreadsheet 1 drawing_tag;
              mkRelationship "rId2" DocTypeSpreadsheet 1 drawing_tag] ∧
    Drawing <$> worksheets σ2 !! Sheet_ws sheet1 = Some (Some (mkCT_Drawing "rId2")).
Proof.
  assert (workbooks rows_1_2_5 !! Sheet_w sheet1 = Some book) as Hw by by_eval.
  assert (relsets rows_1_2_5 !! 1%positive = Some []) as Hl by by_eval.
  assert (worksheets rows_1_2_5 !! Sheet_ws sheet1
          = Some (mkWorksheet
                    [1%positive; 2%positive; 3%positive; 4%positive; 5%positive] None))
    as Hws by by_eval.
  split_and!; [done..|].
  destruct (SetDrawing_twice rId drawing_tag sheet1 drawing1 drawing1 rows_1_2_5
              book book book _ 0 0 0 1%positive [] Hw eq_refl eq_refl Hl Hw eq_refl
              Hw eq_refl Hws)
    as (σ1 & σ2 & Hrun1 & Hrun2 & Hrels & Hdr).
  exists σ1, σ2. split_and!; [done..|]. by rewrite Hdr.
Defined.
